(** * Trading-signal bot and chart-capture service: model and properties

    A shallow embedding of the four Python modules of the repository

    - [src/app/services/trading_bot.py]  (module [trading_bot])
    - [src/services/chart_service.py]    (module [chart_service])
    - [src/app/main.py]                  (module [app_main])
    - [src/main.py]                      (module [chart_main])

    Every function of the source is an orchestration of calls into SDKs
    (redis-py, openai, supabase, python-telegram-bot, selenium).  The
    model therefore runs the Python code in a state-and-exception monad
    over a [World] that holds the cache contents, a clock and the
    chronological trace of every SDK call together with its outcome.
    What an SDK call answers is decided by an [Env], an arbitrary
    function of the history, so that a statement quantified over [Env]
    covers every pattern of successes and failures.

    Left out: the calls to the logger, which do not raise and which no
    property reads, and the exceptions outside [Exception]
    (cancellation, keyboard interrupt), which no handler of the source
    catches. *)

From Stdlib Require Import ZArith List String Ascii Bool Lia SpecFloat.
From Stdlib Require Import DecimalString.
From stdpp Require Import base gmap strings list.

Local Open Scope string_scope.
Local Open Scope list_scope.
Local Open Scope Z_scope.

(** ** Python values *)

(** A [str] is represented by its UTF-8 encoding, so [VStr] and [VBytes]
    both carry a byte string.  A [float] is an IEEE 754 double given by
    sign, mantissa and exponent.  [VObj] is an object read through
    attributes ([response.choices]), [VDict] a dict read through
    subscripts ([signal["symbol"]]). *)
#[warnings="-register-all"] Inductive PyVal : Type :=
| VNone
| VBool (b : bool)
| VInt (z : Z)
| VFloat (f : spec_float)
| VStr (s : string)
| VBytes (b : string)
| VList (xs : list PyVal)
| VDict (items : list (string * PyVal))
| VObj (attrs : list (string * PyVal)).

(** Exceptions.  Every constructor is a subclass of Python's
    [Exception], which is what each [except Exception] clause of the
    source catches.  [SdkError] stands for the errors of the third-party
    clients (connection errors, time-outs, API errors, WebDriver
    errors). *)
Inductive Exn : Type :=
| KeyError (key : string)
| IndexError
| TypeError
| ValueError (msg : string)
| AttributeError (name : string)
| NameError (name : string)
| UnboundLocalError (name : string)
| UnicodeDecodeError
| DataError
| HTTPException (status_code : Z) (detail : string)
| SdkError (cls : string) (msg : string).

Inductive Result (A : Type) : Type :=
| Ok (a : A)
| Raise (e : Exn).
Arguments Ok {A} a.
Arguments Raise {A} e.

Definition is_raise {A} (r : Result A) : bool :=
  match r with Ok _ => false | Raise _ => true end.

(** *** Dictionaries, attributes, truthiness *)

Fixpoint assoc {A} (key : string) (items : list (string * A)) : option A :=
  match items with
  | [] => None
  | (k, v) :: rest => if String.eqb k key then Some v else assoc key rest
  end.

(** [v[key]] for a string key. *)
Definition subscript (v : PyVal) (key : string) : Result PyVal :=
  match v with
  | VDict items =>
      match assoc key items with
      | Some x => Ok x
      | None => Raise (KeyError key)
      end
  | _ => Raise TypeError
  end.

(** [v[0]] and the like on a list. *)
Definition subscript_int (v : PyVal) (i : nat) : Result PyVal :=
  match v with
  | VList xs =>
      match nth_error xs i with
      | Some x => Ok x
      | None => Raise IndexError
      end
  | VDict _ => Raise (KeyError "0")
  | _ => Raise TypeError
  end.

(** [v.name] *)
Definition getattr (v : PyVal) (name : string) : Result PyVal :=
  match v with
  | VObj attrs =>
      match assoc name attrs with
      | Some x => Ok x
      | None => Raise (AttributeError name)
      end
  | _ => Raise (AttributeError name)
  end.

(** [dict.get(key)]: [None] where the key is absent. *)
Definition dict_get (v : PyVal) (key : string) : Result PyVal :=
  match v with
  | VDict items =>
      match assoc key items with
      | Some x => Ok x
      | None => Ok VNone
      end
  | _ => Raise (AttributeError "get")
  end.

(** [bool(v)] *)
Definition py_truthy (v : PyVal) : bool :=
  match v with
  | VNone => false
  | VBool b => b
  | VInt z => negb (z =? 0)
  | VFloat f => match f with S754_zero _ => false | _ => true end
  | VStr s => negb (String.eqb s "")
  | VBytes b => negb (String.eqb b "")
  | VList xs => match xs with [] => false | _ => true end
  | VDict items => match items with [] => false | _ => true end
  | VObj _ => true
  end.

(** [len(v)] *)
Definition py_len (v : PyVal) : Result Z :=
  match v with
  | VStr s | VBytes s => Ok (Z.of_nat (String.length s))
  | VList xs => Ok (Z.of_nat (List.length xs))
  | VDict items => Ok (Z.of_nat (List.length items))
  | _ => Raise TypeError
  end.

Definition string_of_Z (z : Z) : string :=
  NilZero.string_of_int (Z.to_int z).

(** ** UTF-8 *)

(** [bytes.decode()] succeeds exactly on well-formed UTF-8 (Unicode
    table 3-7). *)
Definition in_range (lo hi : N) (c : ascii) : bool :=
  let n := N_of_ascii c in ((lo <=? n) && (n <=? hi))%N.

Definition cont (c : ascii) : bool := in_range 128 191 c.

Fixpoint utf8_valid (s : string) : bool :=
  match s with
  | EmptyString => true
  | String a r1 =>
      if in_range 0 127 a then utf8_valid r1
      else
        match r1 with
        | EmptyString => false
        | String b r2 =>
            if in_range 194 223 a then cont b && utf8_valid r2
            else
              match r2 with
              | EmptyString => false
              | String c r3 =>
                  if in_range 224 239 a then
                    (if in_range 224 224 a then in_range 160 191 b
                     else if in_range 237 237 a then in_range 128 159 b
                     else cont b)
                    && cont c && utf8_valid r3
                  else
                    match r3 with
                    | EmptyString => false
                    | String d r4 =>
                        in_range 240 244 a
                        && (if in_range 240 240 a then in_range 144 191 b
                            else if in_range 244 244 a then in_range 128 143 b
                            else cont b)
                        && cont c && cont d && utf8_valid r4
                    end
              end
        end
  end.

(** [v.decode()] *)
Definition py_decode (v : PyVal) : Result PyVal :=
  match v with
  | VBytes b => if utf8_valid b then Ok (VStr b) else Raise UnicodeDecodeError
  | _ => Raise (AttributeError "decode")
  end.

(** ** Strings *)

Fixpoint startswith (s p : string) : bool :=
  match p, s with
  | EmptyString, _ => true
  | String c p', String d s' => Ascii.eqb c d && startswith s' p'
  | String _ _, EmptyString => false
  end.

(** [v.startswith(p)] *)
Definition py_startswith (v : PyVal) (p : string) : Result bool :=
  match v with
  | VStr s => Ok (startswith s p)
  | VBytes _ => Raise TypeError
  | _ => Raise (AttributeError "startswith")
  end.

(** [s.split(sep)] for a separator of one character: the fields between
    the occurrences of [sep], empty fields included. *)
Fixpoint split_go (sep : ascii) (cur : string) (s : string) : list string :=
  match s with
  | EmptyString => [String.rev cur]
  | String c r =>
      if Ascii.eqb c sep then String.rev cur :: split_go sep EmptyString r
      else split_go sep (String c cur) r
  end.

Definition split (s : string) (sep : ascii) : list string :=
  split_go sep EmptyString s.

(** [urllib.parse.quote(s)] with its default [safe='/']: letters,
    digits and [_.-~/] are kept, every other byte becomes [%XX] in
    upper-case hexadecimal. *)
Definition always_safe (c : ascii) : bool :=
  in_range 65 90 c || in_range 97 122 c || in_range 48 57 c
  || Ascii.eqb c "_" || Ascii.eqb c "." || Ascii.eqb c "-" || Ascii.eqb c "~".

Definition hex_digit (n : N) : ascii :=
  match String.get (N.to_nat n) "0123456789ABCDEF" with
  | Some c => c
  | None => "0"%char
  end.

Fixpoint quote (s : string) : string :=
  match s with
  | EmptyString => EmptyString
  | String c r =>
      if always_safe c || Ascii.eqb c "/" then String c (quote r)
      else
        let n := N_of_ascii c in
        String "%" (String (hex_digit (n / 16)) (String (hex_digit (n mod 16)) (quote r)))
  end.

(** ** The world outside the Python code *)

Record InlineKeyboardButton : Type :=
  { text : string; callback_data : string }.

(** [InlineKeyboardMarkup(rows)] *)
Definition InlineKeyboardMarkup : Type := list (list InlineKeyboardButton).

(** [selenium.webdriver.chrome.options.Options] as [setup_driver] fills
    it. *)
Record Options : Type :=
  { arguments : list string; experimental_options : list (string * PyVal) }.

(** The calls that leave the Python process.  A driver is named by the
    number of the launch that created it. *)
Inductive Call : Type :=
(* redis-py *)
| RedisGet (name : string)
| RedisSetex (name : string) (time : Z) (value : PyVal)
| RedisPing
(* openai: client.chat.completions.create(model=, messages=) *)
| ChatCompletionsCreate (model : string) (messages : list (string * string))
(* supabase: table(t).select(cols).eq(..)....execute() *)
| SupabaseExecute (table : string) (columns : string) (eqs : list (string * PyVal))
(* python-telegram-bot *)
| SendMessage (chat_id : PyVal) (text : string) (parse_mode : option string)
              (reply_markup : option InlineKeyboardMarkup)
| SendPhoto (chat_id : PyVal) (photo : PyVal) (caption : string)
| TelegramAppBot
(* selenium *)
| ChromeLaunch (options : Options)
| SetWindowSize (driver : nat) (width height : Z)
| SetPageLoadTimeout (driver : nat) (seconds : Z)
| DriverGet (driver : nat) (url : string)
| WaitPresenceByClassName (driver : nat) (timeout : Z) (class_name : string)
| ExecuteScript (driver : nat) (script : string)
| GetScreenshotAsPng (driver : nat)
| DriverQuit (driver : nat)
| Sleep (seconds : Z)
(* code of the repository that is not among the source files *)
| AnalyzerAnalyze (symbol : PyVal)
| ProcessTradingviewWebhook (data : PyVal).

Definition Event : Type := Call * Result PyVal.

(** [reply] is what the outside answers to a call, given everything
    that happened before.  For the three Redis commands only the
    distinction matters: [Raise] makes the client raise, [Ok] lets the
    cache model below answer.  [latency] is the time a call takes.
    [builtin_str] is [str(v)] on floats, bytes and containers and
    [str_exn] is [str(e)] on an exception, both left to the Python
    runtime.  [environ] is [os.environ]. *)
Record Env : Type :=
  { reply : list Event -> Call -> Result PyVal;
    latency : list Event -> Call -> Z;
    builtin_str : PyVal -> string;
    str_exn : Exn -> string;
    environ : string -> option string }.

(** [store] maps a Redis key to its value and its expiry time, [now] is
    the clock of the Redis server in seconds, [trace] lists the calls
    made so far, oldest first. *)
Record World : Type :=
  { store : gmap string (string * Z);
    now : Z;
    trace : list Event }.

(** ** The monad of the Python code *)

Definition M (A : Type) : Type := World -> Result A * World.

Definition ret {A} (a : A) : M A := fun w => (Ok a, w).

Definition raise {A} (e : Exn) : M A := fun w => (Raise e, w).

Definition bind {A B} (m : M A) (k : A -> M B) : M B :=
  fun w =>
    match m w with
    | (Ok a, w') => k a w'
    | (Raise e, w') => (Raise e, w')
    end.

Definition lift {A} (r : Result A) : M A := fun w => (r, w).

Notation "x <- m ;; k" := (bind m (fun x => k))
  (at level 100, m at next level, right associativity).
Notation "m ;;; k" := (bind m (fun _ => k))
  (at level 100, right associativity).

(** [try: body  except Exception as e: handler e] *)
Definition try_except {A} (body : M A) (handler : Exn -> M A) : M A :=
  fun w =>
    match body w with
    | (Ok a, w') => (Ok a, w')
    | (Raise e, w') => handler e w'
    end.

(** [try: body  finally: final].  The [finally] block runs however the
    body ends; an exception of its own replaces the body's outcome. *)
Definition try_finally {A B} (body : M A) (final : M B) : M A :=
  fun w =>
    match body w with
    | (r, w') =>
        match final w' with
        | (Ok _, w'') => (r, w'')
        | (Raise e, w'') => (Raise e, w'')
        end
    end.

(** How the body of a [for] loop ends: it falls through or executes
    [continue] (both [Continue]), or it executes [return r]. *)
Inductive LoopCtl (R : Type) : Type :=
| Continue
| Return (r : R).
Arguments Continue {R}.
Arguments Return {R} r.

(** [for x in xs: body x] followed by [orelse] when no iteration
    returned. *)
Fixpoint for_in {X R} (xs : list X) (body : X -> M (LoopCtl R)) (orelse : M R) : M R :=
  match xs with
  | [] => orelse
  | x :: rest =>
      c <- body x ;;
      match c with
      | Return r => ret r
      | Continue => for_in rest body orelse
      end
  end.

(** [range(n)] *)
Definition range (n : Z) : list Z := map Z.of_nat (seq 0 (Z.to_nat n)).

(** [[f x for x in xs]] *)
Fixpoint list_comp {X Y} (f : X -> M Y) (xs : list X) : M (list Y) :=
  match xs with
  | [] => ret []
  | x :: rest => y <- f x ;; ys <- list_comp f rest ;; ret (y :: ys)
  end.

(** Iterating a value: only lists are iterated in this code. *)
Definition py_iter (v : PyVal) : Result (list PyVal) :=
  match v with
  | VList xs => Ok xs
  | _ => Raise TypeError
  end.

Section Externals.
Context (env : Env).

(** [str(v)], also what an f-string puts for [{v}]. *)
Definition py_str (v : PyVal) : string :=
  match v with
  | VNone => "None"
  | VBool true => "True"
  | VBool false => "False"
  | VInt z => string_of_Z z
  | VStr s => s
  | _ => builtin_str env v
  end.

Definition record (c : Call) (r : Result PyVal) (t : Z) (w : World) : World :=
  {| store := store w; now := t; trace := trace w ++ [(c, r)] |}.

(** A call whose answer the outside decides. *)
Definition external (c : Call) : M PyVal :=
  fun w =>
    let r := reply env (trace w) c in
    (r, record c r (now w + latency env (trace w) c) w).

(** *** The cache: Redis with expiring keys *)

(** [redis_client.get(name)]: the value as bytes, [None] when the key
    is absent or has expired. *)
Definition redis_get (name : string) : M PyVal :=
  fun w =>
    let c := RedisGet name in
    let t := now w + latency env (trace w) c in
    let r :=
      match reply env (trace w) c with
      | Raise e => Raise e
      | Ok _ =>
          match store w !! name with
          | Some (v, expiry) => if t <? expiry then Ok (VBytes v) else Ok VNone
          | None => Ok VNone
          end
      end in
    (r, record c r t w).

(** What redis-py (3.0 and later) sends for a value: bytes as they
    are, [str] encoded, numbers printed; anything else, [None]
    included, is refused with [DataError] before the command is
    sent. *)
Definition redis_encode (value : PyVal) : Result string :=
  match value with
  | VBytes b => Ok b
  | VStr s => Ok s
  | VInt z => Ok (string_of_Z z)
  | VFloat f => Ok (builtin_str env (VFloat f))
  | _ => Raise DataError
  end.

(** [redis_client.setex(name, time, value)] *)
Definition redis_setex (name : string) (time : Z) (value : PyVal) : M PyVal :=
  fun w =>
    let c := RedisSetex name time value in
    let t := now w + latency env (trace w) c in
    match redis_encode value with
    | Raise e => (Raise e, record c (Raise e) (now w) w)
    | Ok b =>
        match reply env (trace w) c with
        | Raise e => (Raise e, record c (Raise e) t w)
        | Ok _ =>
            (Ok (VBool true),
             {| store := <[name := (b, t + time)]> (store w);
                now := t;
                trace := trace w ++ [(c, Ok (VBool true))] |})
        end
    end.

(** [redis_client.ping()] *)
Definition redis_ping : M PyVal :=
  fun w =>
    let c := RedisPing in
    let t := now w + latency env (trace w) c in
    let r := match reply env (trace w) c with
             | Raise e => Raise e
             | Ok _ => Ok (VBool true)
             end in
    (r, record c r t w).

(** [time.sleep(seconds)] *)
Definition sleep (seconds : Z) : M PyVal :=
  fun w => (Ok VNone, record (Sleep seconds) (Ok VNone) (now w + seconds) w).

End Externals.

Definition nl : string := String (ascii_of_nat 10) EmptyString.

(** ** [src/services/chart_service.py] *)
Module chart_service.

Inductive ChartService : Type := mkChartService.

(** [ChartService.generate_chart]: the body is [return None] inside a
    [try] whose handler returns [None] as well. *)
Definition generate_chart (self : ChartService) (symbol interval : string) : M PyVal :=
  try_except (ret VNone) (fun e => ret VNone).

End chart_service.

(** ** [src/app/services/trading_bot.py] *)
Module trading_bot.

(** [telegram.Bot(token)] *)
Record Bot : Type := { bot_token : PyVal }.

Record TradingBot : Type :=
  { token : PyVal;
    _bot : option Bot;
    chart_service : chart_service.ChartService }.

(** [TradingBot.__init__] with [os.getenv("TELEGRAM_BOT_TOKEN")]. *)
Definition init (env : Env) : TradingBot :=
  {| token := match environ env "TELEGRAM_BOT_TOKEN" with
              | Some s => VStr s
              | None => VNone
              end;
     _bot := None;
     chart_service := chart_service.mkChartService |}.

(** The constructor [telegram.Bot(token)] starts with
    [if not token: raise InvalidToken(...)]: a token that is [None] or
    empty builds no bot. *)
Definition Bot_new (token : PyVal) : Result Bot :=
  if py_truthy token then Ok {| bot_token := token |}
  else Raise (SdkError "telegram.error.InvalidToken"
                "You must pass the token you received from https://t.me/Botfather!").

(** The [bot] property: what the access gives and the object after it.
    The bot is built on the first access; when the constructor raises,
    the assignment to [self._bot] does not happen and the attribute
    stays [None]. *)
Definition bot (self : TradingBot) : Result Bot * TradingBot :=
  match _bot self with
  | Some b => (Ok b, self)
  | None =>
      match Bot_new (token self) with
      | Ok b =>
          (Ok b, {| token := token self; _bot := Some b; chart_service := chart_service self |})
      | Raise e => (Raise e, self)
      end
  end.

Definition initialize (self : TradingBot) (b : Bot) : TradingBot :=
  {| token := token self; _bot := Some b; chart_service := chart_service self |}.

Section WithEnv.
Context (env : Env).

(** [await self._bot.send_message(...)]: the attribute is looked up
    on [self._bot] first, which fails on [None]. *)
Definition send_message (self : TradingBot) (chat_id : PyVal) (text : string)
    (parse_mode : option string) (reply_markup : option InlineKeyboardMarkup) : M PyVal :=
  match _bot self with
  | None => raise (AttributeError "send_message")
  | Some _ => external env (SendMessage chat_id text parse_mode reply_markup)
  end.

Definition send_photo (self : TradingBot) (chat_id photo : PyVal) (caption : string) : M PyVal :=
  match _bot self with
  | None => raise (AttributeError "send_photo")
  | Some _ => external env (SendPhoto chat_id photo caption)
  end.

Definition match_subscribers (self : TradingBot) (signal : PyVal) : M (list string) :=
  try_except
    (market <- lift (subscript signal "market") ;;
     instrument <- lift (subscript signal "instrument") ;;
     timeframe <- lift (subscript signal "timeframe") ;;
     response <- external env
       (SupabaseExecute "signal_preferences" "*"
          [("market", market); ("instrument", instrument); ("timeframe", timeframe)]) ;;
     data <- lift (getattr response "data") ;;
     prefs <- lift (py_iter data) ;;
     list_comp (fun pref => user_id <- lift (subscript pref "user_id") ;;
                            ret (py_str env user_id)) prefs)
    (fun e => ret []).

Definition analyze_sentiment (self : TradingBot) (symbol : PyVal) : M PyVal :=
  try_except
    (let cache_key := "sentiment:" +:+ py_str env symbol in
     cached <- redis_get env cache_key ;;
     if py_truthy cached then lift (py_decode cached)
     else
       response <- external env
         (ChatCompletionsCreate "gpt-3.5-turbo"
            [("system", "You are a market analyst.");
             ("user", "Analyze " +:+ py_str env symbol +:+ " sentiment briefly")]) ;;
       choices <- lift (getattr response "choices") ;;
       choice <- lift (subscript_int choices 0) ;;
       message <- lift (getattr choice "message") ;;
       sentiment <- lift (getattr message "content") ;;
       redis_setex env cache_key 300 sentiment ;;;
       ret sentiment)
    (fun e => ret (VStr "Sentiment analysis unavailable")).

Definition send_signal_message (self : TradingBot) (chat_id : PyVal) (signal : PyVal)
    (sentiment : PyVal) : M PyVal :=
  try_except
    (symbol <- lift (subscript signal "symbol") ;;
     action <- lift (subscript signal "action") ;;
     price <- lift (subscript signal "price") ;;
     let message :=
       "🔔 *TRADING SIGNAL*" +:+ nl +:+
       "Symbol: " +:+ py_str env symbol +:+ nl +:+
       "Action: " +:+ py_str env action +:+ nl +:+
       "Price: " +:+ py_str env price +:+ nl +:+ nl +:+
       "📊 *SENTIMENT*" +:+ nl +:+
       py_str env sentiment +:+ nl +:+ nl +:+
       "⚠️ *Risk Management*" +:+ nl +:+
       "• Always use proper position sizing" +:+ nl +:+
       "• Never risk more than 1-2% per trade" +:+ nl +:+
       "• Multiple take profit levels recommended" +:+ nl +:+ nl +:+
       "🤖 Generated by SigmaPips AI" in
     symbol1 <- lift (subscript signal "symbol") ;;
     timeframe <- lift (subscript signal "timeframe") ;;
     symbol2 <- lift (subscript signal "symbol") ;;
     symbol3 <- lift (subscript signal "symbol") ;;
     let keyboard : InlineKeyboardMarkup :=
       [ [ {| text := "📊 Technical Analysis";
              callback_data := "chart_" +:+ py_str env symbol1 +:+ "_" +:+ py_str env timeframe |};
           {| text := "🤖 Market Sentiment";
              callback_data := "sentiment_" +:+ py_str env symbol2 |} ];
         [ {| text := "📅 Economic Calendar";
              callback_data := "calendar_" +:+ py_str env symbol3 |} ] ] in
     send_message self chat_id message (Some "Markdown") (Some keyboard) ;;;
     ret VNone)
    (fun e => ret VNone).

Definition process_signal (self : TradingBot) (signal : PyVal) : M PyVal :=
  try_except
    (chat_ids <- match_subscribers self signal ;;
     symbol <- lift (subscript signal "symbol") ;;
     sentiment <- analyze_sentiment self symbol ;;
     for_in chat_ids
       (fun chat_id => send_signal_message self (VStr chat_id) signal sentiment ;;;
                       ret Continue)
       (ret tt) ;;;
     ret (VDict [("status", VStr "success");
                 ("sent_to", VInt (Z.of_nat (List.length chat_ids)));
                 ("signal", signal);
                 ("sentiment", sentiment)]))
    (fun e => raise e).

(** The [try] block of [handle_button_click].  The local [chat_id]
    is assigned in it and read in the [except] block, so the block
    also reports the value of that local at the point where it ends:
    [None] while the assignment has not been reached. *)
Definition handle_button_click_try (self : TradingBot) (callback_query : PyVal)
    : World -> Result PyVal * option PyVal * World :=
  fun w =>
    match subscript callback_query "data" with
    | Raise e => (Raise e, None, w)
    | Ok data =>
        match (message <- lift (subscript callback_query "message") ;;
               chat <- lift (subscript message "chat") ;;
               lift (subscript chat "id")) w with
        | (Raise e, w1) => (Raise e, None, w1)
        | (Ok chat_id, w1) =>
            let rest : M PyVal :=
              is_chart <- lift (py_startswith data "chart_") ;;
              if (is_chart : bool) then
                match data with
                | VStr s =>
                    match split s "_" with
                    | [_; symbol; timeframe] =>
                        chart_bytes <- chart_service.generate_chart
                                         (chart_service self) symbol timeframe ;;
                        if py_truthy chart_bytes then
                          send_photo self chat_id chart_bytes
                            ("📊 Technical Analysis for " +:+ symbol
                             +:+ " (" +:+ timeframe +:+ ")") ;;;
                          ret VNone
                        else
                          send_message self chat_id
                            "❌ Sorry, could not generate chart at this time."
                            None None ;;;
                          ret VNone
                    | _ => raise (ValueError "unpack")
                    end
                | _ => raise (AttributeError "split")
                end
              else ret VNone in
            match rest w1 with
            | (r, w2) => (r, Some chat_id, w2)
            end
        end
    end.

(** The [except Exception] block of [handle_button_click]:
    [self._bot.send_message] is evaluated before the argument
    [chat_id], whose read fails when the local is unbound. *)
Definition handle_button_click_except (self : TradingBot) (chat_id : option PyVal)
    (e : Exn) : M PyVal :=
  match _bot self with
  | None => raise (AttributeError "send_message")
  | Some _ =>
      match chat_id with
      | None => raise (UnboundLocalError "chat_id")
      | Some c =>
          send_message self c "❌ An error occurred while processing your request."
            None None ;;;
          ret VNone
      end
  end.

Definition handle_button_click (self : TradingBot) (callback_query : PyVal) : M PyVal :=
  fun w =>
    match handle_button_click_try self callback_query w with
    | (Ok v, _, w') => (Ok v, w')
    | (Raise e, chat_id, w') => handle_button_click_except self chat_id e w'
    end.

End WithEnv.

End trading_bot.

(** ** HTTP responses *)

Record HttpResponse : Type := { status_code : Z; content : PyVal }.

(** What FastAPI answers for an endpoint function: 200 with the
    returned value, the status carried by an [HTTPException], 500 for
    any other exception. *)
Definition http_response (r : Result PyVal) : HttpResponse :=
  match r with
  | Ok v => {| status_code := 200; content := v |}
  | Raise (HTTPException c d) => {| status_code := c; content := VDict [("detail", VStr d)] |}
  | Raise _ => {| status_code := 500; content := VStr "Internal Server Error" |}
  end.

(** [d[key] = v] on a dict. *)
Fixpoint dict_set (key : string) (v : PyVal) (items : list (string * PyVal))
    : list (string * PyVal) :=
  match items with
  | [] => [(key, v)]
  | (k, x) :: rest =>
      if String.eqb k key then (k, v) :: rest else (k, x) :: dict_set key v rest
  end.

(** ** [src/main.py]: the chart-capture service *)
Module chart_main.

Definition DOWNLOADS_DIR : string := "/tmp/downloads".

Definition chrome_options : Options :=
  {| arguments :=
       ["--headless"; "--no-sandbox"; "--start-maximized"; "--kiosk";
        "--disable-dev-shm-usage"; "--disable-gpu"; "--disable-extensions";
        "--disable-infobars"; "--disable-notifications"; "--hide-scrollbars"];
     experimental_options :=
       [("prefs",
         VDict [("download.default_directory", VStr DOWNLOADS_DIR);
                ("download.prompt_for_download", VBool false);
                ("download.directory_upgrade", VBool true)])] |}.

Definition hide_ui_script : string :=
"
                    const elementsToHide = [
                        '.header-chart-panel',
                        '.left-toolbar',
                        '.right-toolbar',
                        '.bottom-toolbar',
                        '.layout__area--left',
                        '.layout__area--right',
                        'header',
                        '.drawingToolbar',
                        '.chart-controls-bar'
                    ];
                    
                    elementsToHide.forEach(selector => {
                        const elements = document.querySelectorAll(selector);
                        elements.forEach(el => {
                            if (el) el.style.display = 'none';
                        });
                    });
                ".

Definition is_launch (ev : Event) : bool :=
  match fst ev with ChromeLaunch _ => true | _ => false end.

Section WithEnv.
Context (env : Env).

(** [webdriver.Chrome(options=...)]: a new browser, named by the
    number of launches made before it. *)
Definition webdriver_Chrome (options : Options) : M nat :=
  fun w =>
    let c := ChromeLaunch options in
    let t := now w + latency env (trace w) c in
    let d := List.length (List.filter is_launch (trace w)) in
    match reply env (trace w) c with
    | Raise e => (Raise e, record c (Raise e) t w)
    | Ok _ => (Ok d, record c (Ok (VInt (Z.of_nat d))) t w)
    end.

Definition setup_driver : M nat :=
  try_except
    (driver <- webdriver_Chrome chrome_options ;;
     external env (SetWindowSize driver 1920 1080) ;;;
     external env (SetPageLoadTimeout driver 60) ;;;
     ret driver)
    (fun e => raise e).

(** The body of the [for attempt in range(max_retries)] loop. *)
Definition capture_attempt (symbol : string) (max_retries attempt : Z)
    : M (LoopCtl (PyVal * bool)) :=
  try_except
    (let encoded_symbol := quote ("FX:" +:+ symbol) in
     let url := "https://www.tradingview.com/chart/?symbol=" +:+ encoded_symbol in
     driver <- setup_driver ;;
     try_finally
       (try_except
          (external env (DriverGet driver url) ;;;
           chart_element <- external env
             (WaitPresenceByClassName driver 20 "chart-container") ;;
           sleep 5 ;;;
           external env (ExecuteScript driver hide_ui_script) ;;;
           screenshot <- external env (GetScreenshotAsPng driver) ;;
           lift (py_len screenshot) ;;;
           ret (Return (screenshot, true)))
          (fun e =>
             if attempt <? max_retries - 1 then ret Continue
             else ret (Return (VNone, false))))
       (try_except (external env (DriverQuit driver)) (fun e => ret VNone)))
    (fun e =>
       if attempt <? max_retries - 1 then ret Continue
       else ret (Return (VNone, false))).

Definition capture_tradingview_chart (symbol interval theme : string) (max_retries : Z)
    : M (PyVal * bool) :=
  for_in (range max_retries)
    (capture_attempt symbol max_retries)
    (ret (VNone, false)).

(** [GET /chart]; [max_retries] keeps its default, 2. *)
Definition get_chart (symbol interval theme : string) : M PyVal :=
  try_except
    (r <- capture_tradingview_chart symbol interval theme 2 ;;
     let '(screenshot, success) := r in
     if success && py_truthy screenshot then
       ret (VObj [("content", screenshot); ("media_type", VStr "image/png")])
     else raise (HTTPException 500 "Failed to capture chart"))
    (fun e => raise (HTTPException 500 (str_exn env e))).

(** [GET /health] of the chart service.  [timestamp] is what
    [time.strftime("%Y-%m-%d %H:%M:%S")] returns. *)
Definition health_check (timestamp : string) : M PyVal :=
  try_except
    (let browser_status := "unknown" in
     browser_status <-
       try_except
         (driver <- setup_driver ;;
          external env (DriverQuit driver) ;;;
          ret "healthy")
         (fun e => ret ("unhealthy: " +:+ str_exn env e)) ;;
     ret (VDict [("status", VStr "healthy");
                 ("browser", VStr browser_status);
                 ("timestamp", VStr timestamp)]))
    (fun e => raise (HTTPException 500 (str_exn env e))).

End WithEnv.

End chart_main.

(** ** [src/app/main.py]: the HTTP front door of the bot *)
Module app_main.

(** The module-level clients.  [supabase] and [redis_client] are
    assigned inside a [try] at import time, so either name can be
    left undefined; a failure to build [telegram_app] aborts the
    import. *)
Record Globals : Type :=
  { supabase_defined : bool; redis_client_defined : bool }.

Section WithEnv.
Context (env : Env) (g : Globals).

Definition load_global (name : string) (defined : bool) : M unit :=
  if defined then ret tt else raise (NameError name).

(** [os.getenv(name)] *)
Definition getenv (name : string) : PyVal :=
  match environ env name with
  | Some s => VStr s
  | None => VNone
  end.

Definition root : M PyVal := ret (VDict [("status", VStr "online")]).

(** [POST /webhook/tradingview].  [SignalProcessor] is not among the
    source files; its method is a call to the outside. *)
Definition tradingview_webhook (data : PyVal) : M PyVal :=
  try_except
    (signal <- external env (ProcessTradingviewWebhook data) ;;
     ret (VDict [("status", VStr "success");
                 ("message", VStr "Signal processed successfully")]))
    (fun e => raise (HTTPException 500 (str_exn env e))).

(** [POST /analyze].  [SentimentAnalyzer] is not among the source
    files; [analyzer.analyze] is a call to the outside. *)
Definition analyze_sentiment (data : PyVal) : M PyVal :=
  try_except
    (symbol <- lift (dict_get data "symbol") ;;
     (if negb (py_truthy symbol)
      then raise (HTTPException 400 "Symbol is required")
      else ret tt) ;;;
     analysis <- external env (AnalyzerAnalyze symbol) ;;
     ret (VDict [("symbol", symbol); ("sentiment", analysis)]))
    (fun e => raise (HTTPException 500 (str_exn env e))).

(** [GET /health] *)
Definition health_check : M PyVal :=
  try_except
    (let services_status :=
       [("supabase", VStr "unknown"); ("redis", VStr "unknown");
        ("telegram", VStr "unknown")] in
     services_status <-
       try_except
         (load_global "supabase" (supabase_defined g) ;;;
          external env (SupabaseExecute "signal_preferences" "count" []) ;;;
          ret (dict_set "supabase" (VStr "healthy") services_status))
         (fun e => ret (dict_set "supabase" (VStr "unhealthy") services_status)) ;;
     services_status <-
       try_except
         (load_global "redis_client" (redis_client_defined g) ;;;
          redis_ping env ;;;
          ret (dict_set "redis" (VStr "healthy") services_status))
         (fun e => ret (dict_set "redis" (VStr "unhealthy") services_status)) ;;
     services_status <-
       try_except
         (the_bot <- external env TelegramAppBot ;;
          if py_truthy the_bot
          then ret (dict_set "telegram" (VStr "healthy") services_status)
          else ret services_status)
         (fun e => ret (dict_set "telegram" (VStr "unhealthy") services_status)) ;;
     ret (VDict
            [("status", VStr "healthy");
             ("services", VDict services_status);
             ("environment",
              VDict [("REDIS_URL", VBool (py_truthy (getenv "REDIS_URL")));
                     ("SUPABASE_URL", VBool (py_truthy (getenv "SUPABASE_URL")));
                     ("TELEGRAM_BOT_TOKEN",
                      VBool (py_truthy (getenv "TELEGRAM_BOT_TOKEN")))])]))
    (fun e => ret (VDict [("status", VStr "healthy");
                          ("message", VStr "Basic health check")])).

End WithEnv.

End app_main.

(** ** Reading a run *)

(** The calls made between two worlds of one run. *)
Definition events_since (w w' : World) : list Event :=
  drop (List.length (trace w)) (trace w').

Definition is_completion (ev : Event) : bool :=
  match fst ev with ChatCompletionsCreate _ _ => true | _ => false end.

Definition is_quit (ev : Event) : bool :=
  match fst ev with DriverQuit _ => true | _ => false end.

(** [webdriver.Chrome] started a browser. *)
Definition is_browser_up (ev : Event) : bool :=
  match ev with (ChromeLaunch _, Ok _) => true | _ => false end.

(** [setup_driver] returned a driver: its last step went through. *)
Definition is_setup_done (ev : Event) : bool :=
  match ev with (SetPageLoadTimeout _ _, Ok _) => true | _ => false end.

(** A cache write that went through. *)
Definition is_stored (ev : Event) : bool :=
  match ev with (RedisSetex _ _ _, Ok _) => true | _ => false end.

(** The chat a [send_message] call went to. *)
Definition sent_chat (ev : Event) : option PyVal :=
  match fst ev with SendMessage c _ _ _ => Some c | _ => None end.

(** The page a [driver.get] call asked for. *)
Definition loaded_url (ev : Event) : option string :=
  match fst ev with DriverGet _ url => Some url | _ => None end.

(** [response.choices[0].message.content] *)
Definition completion_content (response : PyVal) : Result PyVal :=
  match getattr response "choices" with
  | Raise e => Raise e
  | Ok choices =>
      match subscript_int choices 0 with
      | Raise e => Raise e
      | Ok choice =>
          match getattr choice "message" with
          | Raise e => Raise e
          | Ok message => getattr message "content"
          end
      end
  end.

(** The completion request [analyze_sentiment] makes for a symbol. *)
Definition ask (env : Env) (symbol : PyVal) : Call :=
  ChatCompletionsCreate "gpt-3.5-turbo"
    [("system", "You are a market analyst.");
     ("user", "Analyze " +:+ py_str env symbol +:+ " sentiment briefly")].

(** What makes a fetch of [analyze_sentiment] fail: a call that
    raised, a completion without [choices[0].message.content], cached
    bytes that are not UTF-8. *)
Definition fetch_failed (ev : Event) : bool :=
  match ev with
  | (_, Raise _) => true
  | (ChatCompletionsCreate _ _, Ok response) => is_raise (completion_content response)
  | (RedisGet _, Ok (VBytes b)) => negb (utf8_valid b)
  | _ => false
  end.

(** [wp m w Q]: the run of [m] from [w] ends in a result and a world
    that satisfy [Q]. *)
Definition wp {A} (m : M A) (w : World) (Q : Result A -> World -> Prop) : Prop :=
  Q (m w).1 (m w).2.

(** A run that sends no message. *)
Definition silent (w : World) {A} (r : Result A) (w' : World) : Prop :=
  exists new, trace w' = trace w ++ new /\ omap sent_chat new = [].

(** The loop of [process_signal] over the matched chats. *)
Definition send_all (env : Env) (self : trading_bot.TradingBot) (signal sentiment : PyVal)
    (chat_ids : list string) : M unit :=
  for_in chat_ids
    (fun chat_id =>
       trading_bot.send_signal_message env self (VStr chat_id) signal sentiment ;;;
       ret Continue)
    (ret tt).

(** *** Reading a run of the chart capture *)

Definition count (p : Event -> bool) (l : list Event) : nat :=
  List.length (List.filter p l).

(** The driver a [driver.quit()] call closed. *)
Definition quit_driver (ev : Event) : option nat :=
  match fst ev with DriverQuit d => Some d | _ => None end.

(** The page of the chart for a symbol. *)
Definition chart_url (symbol : string) : string :=
  "https://www.tradingview.com/chart/?symbol=" +:+ quote ("FX:" +:+ symbol).

(** An iteration of the capture loop ended with [return screenshot, True]. *)
Definition captured (r : Result (LoopCtl (PyVal * bool))) : bool :=
  match r with
  | Ok (Return (_, true)) => true
  | _ => false
  end.

(** Each of the attempts [attempts], run one after the other from [w],
    fails to produce a screenshot. *)
Fixpoint every_attempt_fails (env : Env) (symbol : string) (max_retries : Z)
    (attempts : list Z) (w : World) : Prop :=
  match attempts with
  | [] => True
  | attempt :: rest =>
      let run := chart_main.capture_attempt env symbol max_retries attempt w in
      captured run.1 = false
      /\ every_attempt_fails env symbol max_retries rest run.2
  end.

(** What one iteration of the capture loop leaves in the trace, [d]
    being the number of browsers launched before it. *)
Definition attempt_events (symbol : string) (d : nat) (new : list Event) : Prop :=
  count chart_main.is_launch new = 1%nat
  /\ count is_quit new = count is_setup_done new
  /\ (omap quit_driver new = [] \/ omap quit_driver new = [d])
  /\ Forall (eq (chart_url symbol)) (omap loaded_url new).

(** The capture loop over the attempts that remain. *)
Definition capture_loop (env : Env) (symbol : string) (max_retries : Z)
    (attempts : list Z) : M (PyVal * bool) :=
  for_in attempts (chart_main.capture_attempt env symbol max_retries) (ret (VNone, false)).

(** *** Reading a run, continued *)

(** The chat id a callback query carries:
    [callback_query["message"]["chat"]["id"]]. *)
Definition callback_chat (callback_query : PyVal) : Result PyVal :=
  match subscript callback_query "message" with
  | Raise e => Raise e
  | Ok message =>
      match subscript message "chat" with
      | Raise e => Raise e
      | Ok chat => subscript chat "id"
      end
  end.

(** The character [c] occurs in [s]. *)
Fixpoint contains (c : ascii) (s : string) : bool :=
  match s with
  | EmptyString => false
  | String d r => Ascii.eqb d c || contains c r
  end.

(** The number of occurrences of [c] in [s]. *)
Fixpoint occurrences (c : ascii) (s : string) : nat :=
  match s with
  | EmptyString => 0%nat
  | String d r => ((if Ascii.eqb d c then 1 else 0) + occurrences c r)%nat
  end.

Definition is_send (ev : Event) : bool :=
  match fst ev with SendMessage _ _ _ _ => true | _ => false end.

Definition is_photo (ev : Event) : bool :=
  match fst ev with SendPhoto _ _ _ => true | _ => false end.

Definition is_directory (ev : Event) : bool :=
  match fst ev with SupabaseExecute _ _ _ => true | _ => false end.

(** A cache command or a completion request. *)
Definition is_fetch (ev : Event) : bool :=
  match fst ev with
  | RedisGet _ | RedisSetex _ _ _ | ChatCompletionsCreate _ _ => true
  | _ => false
  end.

(** What a [send_message] call carried besides the chat. *)
Definition sent_content (ev : Event)
    : option (string * option string * option InlineKeyboardMarkup) :=
  match fst ev with
  | SendMessage _ text parse_mode reply_markup => Some (text, parse_mode, reply_markup)
  | _ => None
  end.

(** Nothing in the way of a send: the bot is there and the signal has
    the fields the message is built from. *)
Definition sendable (self : trading_bot.TradingBot) (signal : PyVal) : bool :=
  match trading_bot._bot self with Some _ => true | None => false end
  && negb (is_raise (subscript signal "symbol"))
  && negb (is_raise (subscript signal "action"))
  && negb (is_raise (subscript signal "price"))
  && negb (is_raise (subscript signal "timeframe")).

(** Every character of [s] satisfies [p]. *)
Fixpoint all_chars (p : ascii -> bool) (s : string) : bool :=
  match s with
  | EmptyString => true
  | String c r => p c && all_chars p r
  end.

(** The characters [quote] lets through or produces. *)
Definition url_char (c : ascii) : bool :=
  always_safe c || Ascii.eqb c "/" || Ascii.eqb c "%".

Definition is_supabase_query (c : Call) : bool :=
  match c with SupabaseExecute _ _ _ => true | _ => false end.

Definition is_ping (c : Call) : bool :=
  match c with RedisPing => true | _ => false end.

Definition is_bot_lookup (c : Call) : bool :=
  match c with TelegramAppBot => true | _ => false end.

(** The status [GET /health] gives a service whose probe is the call
    [probe]: healthy when that call was made and did not raise. *)
Definition probe_status (probe : Call -> bool) (new : list Event) : string :=
  if existsb (fun ev => probe ev.1 && negb (is_raise ev.2)) new
  then "healthy" else "unhealthy".

(** The status it gives the Telegram bot. *)
Definition telegram_status (new : list Event) : string :=
  match List.find (fun ev => is_bot_lookup ev.1) new with
  | Some (_, Ok the_bot) => if py_truthy the_bot then "healthy" else "unknown"
  | Some (_, Raise _) => "unhealthy"
  | None => "unknown"
  end.

(** A browser that started and then could not be configured:
    [set_window_size] or [set_page_load_timeout] raised inside
    [setup_driver]. *)
Definition is_config_failure (ev : Event) : bool :=
  match ev with
  | (SetWindowSize _ _ _, Raise _) | (SetPageLoadTimeout _ _, Raise _) => true
  | _ => false
  end.

(** ** Scenarios *)

(** A chat completion object with one choice. *)
Definition completion (content : PyVal) : PyVal :=
  VObj [("choices", VList [VObj [("message", VObj [("content", content)])]])].

(** A scripted outside world: [answers] fixes the reply to each call,
    nothing takes time. *)
Definition scripted (answers : Call -> Result PyVal) : Env :=
  {| reply := fun _ c => answers c;
     latency := fun _ _ => 0;
     builtin_str := fun _ => "";
     str_exn := fun _ => "";
     environ := fun _ => None |}.

Definition world0 : World := {| store := ∅; now := 0; trace := [] |}.

(** Everything works; the model answers [text], the directory has the
    rows [rows]. *)
Definition env_up (text : string) (rows : list PyVal) : Env :=
  scripted (fun c =>
    match c with
    | ChatCompletionsCreate _ _ => Ok (completion (VStr text))
    | SupabaseExecute _ _ _ => Ok (VObj [("data", VList rows)])
    | GetScreenshotAsPng _ => Ok (VBytes "PNG")
    | _ => Ok VNone
    end).

(** Telegram refuses every message. *)
Definition env_telegram_down : Env :=
  scripted (fun c =>
    match c with
    | SendMessage _ _ _ _ => Raise (SdkError "telegram.error.Forbidden" "bot was blocked by the user")
    | _ => Ok VNone
    end).

(** The browser starts but refuses to be resized. *)
Definition env_window_fails : Env :=
  scripted (fun c =>
    match c with
    | SetWindowSize _ _ _ => Raise (SdkError "WebDriverException" "failed to change window state")
    | _ => Ok VNone
    end).

(** Three subscribers; the first has blocked the bot. *)
Definition env_one_blocked : Env :=
  scripted (fun c =>
    match c with
    | SupabaseExecute _ _ _ =>
        Ok (VObj [("data", VList [VDict [("user_id", VInt 1)];
                                  VDict [("user_id", VInt 2)];
                                  VDict [("user_id", VInt 3)]])])
    | SendMessage (VStr "1") _ _ _ => Raise (SdkError "telegram.error.Forbidden" "")
    | ChatCompletionsCreate _ _ => Ok (completion (VStr "Bullish"))
    | _ => Ok VNone
    end).

(** The chart container never appears. *)
Definition env_chart_timeout : Env :=
  scripted (fun c =>
    match c with
    | WaitPresenceByClassName _ _ _ => Raise (SdkError "TimeoutException" "")
    | _ => Ok VNone
    end).

Definition bot_ready : trading_bot.TradingBot :=
  trading_bot.initialize (trading_bot.init (scripted (fun _ => Ok VNone)))
    {| trading_bot.bot_token := VStr "t" |}.

(** The price 1.0850 of the example signal: the nearest double,
    [0x1.15c28f5c28f5cp+0]. *)
Definition price_eurusd : spec_float := S754_finite false 4886405595696988 (-52).

Definition signal_eurusd : PyVal :=
  VDict [("market", VStr "forex"); ("instrument", VStr "EURUSD");
         ("timeframe", VStr "1h"); ("symbol", VStr "EURUSD");
         ("action", VStr "BUY"); ("price", VFloat price_eurusd)].

(** A callback query as the handler reads it. *)
Definition callback (data : PyVal) (chat_id : PyVal) : PyVal :=
  VDict [("id", VStr "1"); ("data", data);
         ("message", VDict [("chat", VDict [("id", chat_id)])])].

(** *** More scenarios *)

(** The directory cannot be reached. *)
Definition env_directory_down : Env :=
  scripted (fun c =>
    match c with
    | SupabaseExecute _ _ _ => Raise (SdkError "postgrest.APIError" "connection refused")
    | ChatCompletionsCreate _ _ => Ok (completion (VStr "Bullish"))
    | _ => Ok VNone
    end).

(** The directory answers with a row that has no [user_id]. *)
Definition env_bad_row : Env :=
  scripted (fun c =>
    match c with
    | SupabaseExecute _ _ _ =>
        Ok (VObj [("data", VList [VDict [("user_id", VInt 1)];
                                  VDict [("chat", VInt 2)]])])
    | ChatCompletionsCreate _ _ => Ok (completion (VStr "Bullish"))
    | _ => Ok VNone
    end).

(** A signal that lost its [symbol]. *)
Definition signal_no_symbol : PyVal :=
  VDict [("market", VStr "forex"); ("instrument", VStr "EURUSD");
         ("timeframe", VStr "1h"); ("action", VStr "BUY")].

(** The language-model API cannot be reached. *)
Definition env_api_down : Env :=
  scripted (fun c =>
    match c with
    | ChatCompletionsCreate _ _ => Raise (SdkError "openai.APIConnectionError" "")
    | _ => Ok VNone
    end).

(** A cache that already holds the sentiment of another symbol. *)
Definition world_gbp_cached : World :=
  {| store := {[ "sentiment:GBPUSD" := ("Bearish", 200) ]}; now := 0; trace := [] |}.

(** ** Reasoning about runs *)

Lemma events_since_app (w w' : World) (new : list Event) :
  trace w' = trace w ++ new -> events_since w w' = new.
Proof. intros H. unfold events_since. rewrite H. apply drop_app_length. Qed.

Lemma wp_ret {A} (a : A) w Q : Q (Ok a) w -> wp (ret a) w Q.
Proof. exact id. Qed.

Lemma wp_raise {A} (e : Exn) w (Q : Result A -> World -> Prop) :
  Q (Raise e) w -> wp (raise e) w Q.
Proof. exact id. Qed.

Lemma wp_lift {A} (r : Result A) w Q : Q r w -> wp (lift r) w Q.
Proof. exact id. Qed.

Lemma wp_bind {A B} (m : M A) (k : A -> M B) w Q :
  wp m w (fun r w' => match r with
                      | Ok a => wp (k a) w' Q
                      | Raise e => Q (Raise e) w'
                      end) ->
  wp (bind m k) w Q.
Proof. unfold wp, bind. destruct (m w) as [[a|e] w']; exact id. Qed.

Lemma wp_try_except {A} (body : M A) (handler : Exn -> M A) w Q :
  wp body w (fun r w' => match r with
                         | Ok a => Q (Ok a) w'
                         | Raise e => wp (handler e) w' Q
                         end) ->
  wp (try_except body handler) w Q.
Proof. unfold wp, try_except. destruct (body w) as [[a|e] w']; exact id. Qed.

Lemma wp_try_finally {A B} (body : M A) (final : M B) w Q :
  wp body w (fun r w' =>
    wp final w' (fun f w'' => match f with
                              | Ok _ => Q r w''
                              | Raise e => Q (Raise e) w''
                              end)) ->
  wp (try_finally body final) w Q.
Proof.
  unfold wp, try_finally. destruct (body w) as [r w']. simpl.
  destruct (final w') as [[b|e] w'']; exact id.
Qed.

Lemma wp_external env (c : Call) w Q :
  Q (reply env (trace w) c)
    (record c (reply env (trace w) c) (now w + latency env (trace w) c) w) ->
  wp (external env c) w Q.
Proof. exact id. Qed.

Lemma wp_sleep (s : Z) w Q :
  Q (Ok VNone) (record (Sleep s) (Ok VNone) (now w + s) w) -> wp (sleep s) w Q.
Proof. exact id. Qed.

Ltac wp_step :=
  lazymatch goal with
  | |- wp (bind _ _) _ _ => apply wp_bind
  | |- wp (try_except _ _) _ _ => apply wp_try_except
  | |- wp (try_finally _ _) _ _ => apply wp_try_finally
  | |- wp (ret _) _ _ => apply wp_ret
  | |- wp (raise _) _ _ => apply wp_raise
  | |- wp (lift _) _ _ => apply wp_lift
  | |- wp (external _ _) _ _ => apply wp_external
  | |- wp (sleep _) _ _ => apply wp_sleep
  end; cbv beta iota.

Lemma wp_redis_ping env w Q :
  (forall r, (exists e, r = Raise e) \/ r = Ok (VBool true) ->
     Q r (record RedisPing r (now w + latency env (trace w) RedisPing) w)) ->
  wp (redis_ping env) w Q.
Proof.
  intros H. unfold wp, redis_ping. cbn [fst snd]. apply H.
  destruct (reply env (trace w) RedisPing); eauto.
Qed.

(** Case analysis on the answer of the outside, or on the test of a
    conditional, at the head of the goal. *)
Ltac wp_case :=
  lazymatch goal with
  | |- match ?x with _ => _ end => destruct x eqn:?
  | |- wp (if ?b then _ else _) _ _ => destruct b eqn:?
  | |- wp (match ?x with _ => _ end) _ _ => destruct x eqn:?
  end.

Ltac wp_run := repeat (wp_step || wp_case).

(** * Properties *)

(** C5.  Whatever the three probes of [GET /health] do (the Supabase
    query, the Redis ping and the Telegram bot lookup each succeed or
    raise, the two client names defined or not), the endpoint answers
    HTTP 200 with a body whose [status] is ["healthy"]. *)
Theorem health_check_always_healthy (env : Env) (g : app_main.Globals) (w : World) :
  let r := (app_main.health_check env g w).1 in
  status_code (http_response r) = 200
  /\ exists items, r = Ok (VDict items) /\ assoc "status" items = Some (VStr "healthy").
Proof.
  cbv zeta.
  change (wp (app_main.health_check env g) w (fun r _ =>
    status_code (http_response r) = 200
    /\ exists items, r = Ok (VDict items) /\ assoc "status" items = Some (VStr "healthy"))).
  assert (Hdone : forall items : list (string * PyVal),
    assoc "status" items = Some (VStr "healthy") ->
    status_code (http_response (Ok (VDict items))) = 200
    /\ exists items', Ok (VDict items) = Ok (VDict items')
                      /\ assoc "status" items' = Some (VStr "healthy")).
  { intros items H. split; [reflexivity | exists items; auto]. }
  unfold app_main.health_check, app_main.load_global.
  wp_run.
  all: try (apply wp_redis_ping; intros ? [[? ->] | ->]).
  all: wp_run.
  all: apply Hdone; reflexivity.
Qed.

(** C1.  [POST /analyze] with a body whose [symbol] is absent or falsy
    ([None], [""], [0], ...): the [HTTPException] with status 400 is
    raised inside the [try] block and caught by the [except Exception]
    clause of the same function, which raises a new one with status
    500.  The endpoint answers 500, not 400. *)
Theorem analyze_without_symbol_answers_500 (env : Env) (data symbol : PyVal) (w : World) :
  dict_get data "symbol" = Ok symbol ->
  py_truthy symbol = false ->
  (app_main.analyze_sentiment env data w).1
  = Raise (HTTPException 500 (str_exn env (HTTPException 400 "Symbol is required")))
  /\ status_code (http_response (app_main.analyze_sentiment env data w).1) = 500.
Proof.
  intros Hget Hfalsy.
  assert (Hrun : (app_main.analyze_sentiment env data w).1
    = Raise (HTTPException 500 (str_exn env (HTTPException 400 "Symbol is required")))).
  { unfold app_main.analyze_sentiment, try_except, bind, lift, raise.
    rewrite Hget, Hfalsy. reflexivity. }
  split; [exact Hrun | by rewrite Hrun].
Qed.

(** The scenario of the specification, the body [{}]. *)
Lemma analyze_without_symbol_answers_500_witness :
  (app_main.analyze_sentiment (env_up "Bullish" []) (VDict []) world0).1
  = Raise (HTTPException 500
             (str_exn (env_up "Bullish" []) (HTTPException 400 "Symbol is required")))
  /\ status_code
       (http_response (app_main.analyze_sentiment (env_up "Bullish" []) (VDict []) world0).1)
     = 500.
Proof.
  apply (analyze_without_symbol_answers_500 (env_up "Bullish" []) (VDict []) VNone world0);
    reflexivity.
Defined.

(** C9.  A callback query that carries a string payload and a chat id,
    and whose payload does not start with ["chart_"], leaves the world
    exactly as it was (no message sent, no chart requested) and the
    handler returns normally. *)
Theorem unrecognised_payload_is_ignored (env : Env) (self : trading_bot.TradingBot)
    (callback_query message chat chat_id : PyVal) (data : string) (w : World) :
  subscript callback_query "data" = Ok (VStr data) ->
  subscript callback_query "message" = Ok message ->
  subscript message "chat" = Ok chat ->
  subscript chat "id" = Ok chat_id ->
  startswith data "chart_" = false ->
  trading_bot.handle_button_click env self callback_query w = (Ok VNone, w).
Proof.
  intros Hdata Hmessage Hchat Hid Hprefix.
  unfold trading_bot.handle_button_click, trading_bot.handle_button_click_try.
  rewrite Hdata. unfold bind, lift, ret.
  rewrite Hmessage, Hchat, Hid. unfold py_startswith.
  rewrite Hprefix. reflexivity.
Qed.

Lemma unrecognised_payload_is_ignored_witness :
  trading_bot.handle_button_click env_telegram_down bot_ready
    (callback (VStr "sentiment_EURUSD") (VInt 123)) world0
  = (Ok VNone, world0).
Proof.
  apply (unrecognised_payload_is_ignored env_telegram_down bot_ready
           (callback (VStr "sentiment_EURUSD") (VInt 123))
           (VDict [("chat", VDict [("id", VInt 123)])])
           (VDict [("id", VInt 123)]) (VInt 123) "sentiment_EURUSD" world0);
    reflexivity.
Defined.

(** C2.  Two callback queries on which [handle_button_click] raises to
    its caller.  (a) A query without the [message] field: the [try]
    block fails before [chat_id] is assigned and the [except] block
    reads the unbound local.  (b) A complete query while Telegram
    refuses messages: the apology fails, is caught, and the generic
    error message sent from the [except] block fails too, outside any
    [try]. *)
Theorem handle_button_click_raises :
  (forall (env : Env) (b : trading_bot.Bot) (w : World),
     trading_bot.handle_button_click env (trading_bot.initialize (trading_bot.init env) b)
       (VDict [("id", VStr "1"); ("data", VStr "chart_EURUSD_1h")]) w
     = (Raise (UnboundLocalError "chat_id"), w))
  /\ (trading_bot.handle_button_click env_telegram_down bot_ready
        (callback (VStr "chart_EURUSD_1h") (VInt 123)) world0).1
     = Raise (SdkError "telegram.error.Forbidden" "bot was blocked by the user").
Proof. split; reflexivity. Qed.

(** What the handler does guarantee: when the chat id has been read and
    the bot is initialised, an exception of the [try] block is caught
    and the generic message is sent to that chat; the handler then ends
    as that send ends. *)
Lemma handle_button_click_caught (env : Env) (self : trading_bot.TradingBot)
    (b : trading_bot.Bot) (callback_query chat_id : PyVal) (e : Exn) (w w1 : World) :
  trading_bot._bot self = Some b ->
  trading_bot.handle_button_click_try env self callback_query w = (Raise e, Some chat_id, w1) ->
  let c := SendMessage chat_id "❌ An error occurred while processing your request."
             None None in
  trading_bot.handle_button_click env self callback_query w
  = (match reply env (trace w1) c with Ok _ => Ok VNone | Raise e' => Raise e' end,
     record c (reply env (trace w1) c) (now w1 + latency env (trace w1) c) w1).
Proof.
  intros Hbot Htry c.
  unfold trading_bot.handle_button_click. rewrite Htry.
  unfold trading_bot.handle_button_click_except, trading_bot.send_message.
  rewrite Hbot. unfold bind, external, ret. fold c.
  destruct (reply env (trace w1) c); reflexivity.
Qed.

(** C8.  For a signal whose symbol and timeframe are strings, the one
    message [send_signal_message] sends carries two rows of buttons:
    chart and sentiment in the first, calendar in the second, with the
    payloads [chart_<symbol>_<timeframe>], [sentiment_<symbol>] and
    [calendar_<symbol>]. *)
Theorem signal_message_buttons (env : Env) (self : trading_bot.TradingBot)
    (b : trading_bot.Bot) (chat_id signal sentiment action price : PyVal)
    (symbol timeframe : string) (w : World) :
  trading_bot._bot self = Some b ->
  subscript signal "symbol" = Ok (VStr symbol) ->
  subscript signal "timeframe" = Ok (VStr timeframe) ->
  subscript signal "action" = Ok action ->
  subscript signal "price" = Ok price ->
  exists (message : string) (r : Result PyVal),
    let run := trading_bot.send_signal_message env self chat_id signal sentiment w in
    run.1 = Ok VNone
    /\ events_since w run.2
       = [(SendMessage chat_id message (Some "Markdown")
             (Some [ [ {| text := "📊 Technical Analysis";
                          callback_data := "chart_" +:+ symbol +:+ "_" +:+ timeframe |};
                       {| text := "🤖 Market Sentiment";
                          callback_data := "sentiment_" +:+ symbol |} ];
                     [ {| text := "📅 Economic Calendar";
                          callback_data := "calendar_" +:+ symbol |} ] ]),
           r)].
Proof.
  intros Hbot Hsymbol Htimeframe Haction Hprice.
  unfold trading_bot.send_signal_message, trading_bot.send_message.
  unfold try_except, bind, lift, external, ret.
  rewrite Hsymbol, Htimeframe, Haction, Hprice, Hbot.
  cbv beta iota zeta.
  eexists. eexists.
  match goal with
  | |- context [reply env (trace w) ?c] => destruct (reply env (trace w) c) eqn:Hreply
  end.
  - split; [reflexivity |].
    cbn [fst snd]. apply events_since_app. cbn [record trace py_str].
    rewrite <- Hreply. reflexivity.
  - split; [reflexivity |].
    cbn [fst snd]. apply events_since_app. cbn [record trace py_str].
    rewrite <- Hreply. reflexivity.
Qed.

Lemma signal_message_buttons_witness :
  exists (message : string) (r : Result PyVal),
    let run := trading_bot.send_signal_message (env_up "Bullish" []) bot_ready
                 (VStr "123") signal_eurusd (VStr "Bullish") world0 in
    run.1 = Ok VNone
    /\ events_since world0 run.2
       = [(SendMessage (VStr "123") message (Some "Markdown")
             (Some [ [ {| text := "📊 Technical Analysis";
                          callback_data := "chart_EURUSD_1h" |};
                       {| text := "🤖 Market Sentiment";
                          callback_data := "sentiment_EURUSD" |} ];
                     [ {| text := "📅 Economic Calendar";
                          callback_data := "calendar_EURUSD" |} ] ]),
           r)].
Proof.
  apply (signal_message_buttons (env_up "Bullish" []) bot_ready
           {| trading_bot.bot_token := VStr "t" |}
           (VStr "123") signal_eurusd (VStr "Bullish") (VStr "BUY")
           (VFloat price_eurusd) "EURUSD" "1h" world0);
    reflexivity.
Defined.

(** *** The sentiment fetcher *)

Lemma redis_get_run (env : Env) (key : string) (w : World) :
  let c := RedisGet key in
  exists r,
    redis_get env key w = (r, record c r (now w + latency env (trace w) c) w)
    /\ ((exists e, r = Raise e /\ reply env (trace w) c = Raise e)
        \/ (r = Ok VNone /\ forall v expiry,
              store w !! key = Some (v, expiry) ->
              expiry <= now w + latency env (trace w) c)
        \/ (exists v expiry, r = Ok (VBytes v) /\ store w !! key = Some (v, expiry)
                             /\ now w + latency env (trace w) c < expiry)).
Proof.
  intros c. unfold redis_get. fold c.
  destruct (reply env (trace w) c) as [a|e] eqn:Hreply.
  - destruct (store w !! key) as [[v expiry]|] eqn:Hstore.
    + destruct (now w + latency env (trace w) c <? expiry) eqn:Hlt.
      * eexists. split; [reflexivity|]. right. right. exists v, expiry.
        split; [reflexivity|]. split; [reflexivity|]. by apply Z.ltb_lt.
      * eexists. split; [reflexivity|]. right. left. split; [reflexivity|].
        intros v' expiry' Heq. inversion Heq; subst. by apply Z.ltb_ge.
    + eexists. split; [reflexivity|]. right. left. split; [reflexivity|].
      intros v' expiry' Heq. discriminate.
  - eexists. split; [reflexivity|]. left. eauto.
Qed.

Lemma redis_setex_run (env : Env) (key : string) (time : Z) (value : PyVal) (w : World) :
  let c := RedisSetex key time value in
  (exists e w', redis_setex env key time value w = (Raise e, w')
                /\ trace w' = trace w ++ [(c, Raise e)] /\ store w' = store w)
  \/ (exists b, redis_encode env value = Ok b
        /\ redis_setex env key time value w
           = (Ok (VBool true),
              {| store := <[key := (b, now w + latency env (trace w) c + time)]> (store w);
                 now := now w + latency env (trace w) c;
                 trace := trace w ++ [(c, Ok (VBool true))] |})).
Proof.
  intros c. unfold redis_setex. fold c.
  destruct (redis_encode env value) as [b|e].
  - destruct (reply env (trace w) c) as [a|e].
    + right. exists b. split; reflexivity.
    + left. eexists. eexists. split; [reflexivity|]. split; reflexivity.
  - left. eexists. eexists. split; [reflexivity|]. split; reflexivity.
Qed.

Lemma analyze_sentiment_outcome (env : Env) (self : trading_bot.TradingBot)
    (symbol : PyVal) (w : World) :
  let key := "sentiment:" +:+ py_str env symbol in
  let run := trading_bot.analyze_sentiment env self symbol w in
  exists (v : PyVal) (new : list Event),
    run.1 = Ok v
    /\ trace run.2 = trace w ++ new
    /\ omap sent_chat new = []
    /\ ((v = VStr "Sentiment analysis unavailable" /\ store run.2 = store w
         /\ forallb (fun ev => negb (is_stored ev)) new = true
         /\ existsb fetch_failed new = true)
        \/ (exists b expiry,
              new = [(RedisGet key, Ok (VBytes b))]
              /\ b <> "" /\ utf8_valid b = true /\ v = VStr b
              /\ store run.2 = store w
              /\ store w !! key = Some (b, expiry) /\ now run.2 < expiry)
        \/ (exists cached response b,
              new = [(RedisGet key, Ok cached); (ask env symbol, Ok response);
                     (RedisSetex key 300 v, Ok (VBool true))]
              /\ py_truthy cached = false
              /\ completion_content response = Ok v
              /\ redis_encode env v = Ok b
              /\ store run.2 = <[key := (b, now run.2 + 300)]> (store w))).
Proof.
  intros key run. subst run.
  unfold trading_bot.analyze_sentiment, try_except, bind. cbv zeta. fold key.
  destruct (redis_get_run env key w) as (r & -> & Hr).
  set (w1 := record _ r _ w).
  assert (Hw1 : trace w1 = trace w ++ [(RedisGet key, r)]) by reflexivity.
  assert (Hs1 : store w1 = store w) by reflexivity.
  assert (Hfallback : forall w' new,
    trace w' = trace w1 ++ new -> omap sent_chat new = [] -> store w' = store w ->
    forallb (fun ev => negb (is_stored ev)) new = true ->
    existsb fetch_failed ((RedisGet key, r) :: new) = true ->
    exists (v : PyVal) (new : list Event),
      Ok (VStr "Sentiment analysis unavailable") = Ok v
      /\ trace w' = trace w ++ new
      /\ omap sent_chat new = []
      /\ ((v = VStr "Sentiment analysis unavailable" /\ store w' = store w
           /\ forallb (fun ev => negb (is_stored ev)) new = true
           /\ existsb fetch_failed new = true)
          \/ (exists b expiry,
                new = [(RedisGet key, Ok (VBytes b))]
                /\ b <> "" /\ utf8_valid b = true /\ v = VStr b
                /\ store w' = store w
                /\ store w !! key = Some (b, expiry) /\ now w' < expiry)
          \/ (exists cached response b,
                new = [(RedisGet key, Ok cached); (ask env symbol, Ok response);
                       (RedisSetex key 300 v, Ok (VBool true))]
                /\ py_truthy cached = false
                /\ completion_content response = Ok v
                /\ redis_encode env v = Ok b
                /\ store w' = <[key := (b, now w' + 300)]> (store w)))).
  { intros w' new Htrace Hsent Hstore Hnone Hfailed.
    exists (VStr "Sentiment analysis unavailable"), ((RedisGet key, r) :: new).
    split; [reflexivity|]. split; [|split].
    - rewrite Htrace, Hw1, <- app_assoc. reflexivity.
    - cbn [omap list_omap sent_chat fst]. exact Hsent.
    - left. split; [reflexivity |]. split; [exact Hstore |].
      split; [| exact Hfailed].
      cbn [forallb is_stored negb andb]. exact Hnone. }
  destruct r as [cached|e].
  - destruct (py_truthy cached) eqn:Htruthy.
    + (* a cached value *)
      destruct Hr as [(e & He & _) | [(Hc & _) | (b & expiry & Hc & Hstore & Hlive)]];
        [discriminate | injection Hc as ->; discriminate |].
      injection Hc as ->.
      unfold lift, py_decode.
      destruct (utf8_valid b) eqn:Hvalid; cbn [fst snd ret].
      * exists (VStr b), [(RedisGet key, Ok (VBytes b))].
        split; [reflexivity|]. split; [exact Hw1|]. split; [reflexivity|].
        right. left. exists b, expiry.
        split; [reflexivity|]. split; [intros ->; discriminate|].
        split; [exact Hvalid|]. split; [reflexivity|]. split; [exact Hs1|].
        split; [exact Hstore | exact Hlive].
      * apply (Hfallback w1 []); [by rewrite app_nil_r | reflexivity | exact Hs1 | reflexivity |].
        cbn [existsb fetch_failed]. by rewrite Hvalid.
    + (* nothing usable in the cache *)
      unfold external. fold (ask env symbol).
      set (a := ask env symbol).
      assert (Hbad : forall response rest,
                is_raise (completion_content response) = true ->
                existsb fetch_failed ((RedisGet key, Ok cached) :: (a, Ok response) :: rest) = true).
      { intros response rest Hraise. cbn [existsb]. apply orb_true_iff. right.
        apply orb_true_iff. left. exact Hraise. }
      destruct (reply env (trace w1) a) as [response|e] eqn:Hask.
      * unfold lift.
        set (w2 := record a (Ok response) _ w1).
        assert (Hw2 : trace w2 = trace w1 ++ [(a, Ok response)]) by reflexivity.
        destruct (getattr response "choices") as [choices|e] eqn:H1; cbn [fst snd ret];
          [| apply (Hfallback w2 [(a, Ok response)]); try reflexivity;
             apply Hbad; unfold completion_content; by rewrite H1].
        destruct (subscript_int choices 0) as [choice|e] eqn:H2; cbn [fst snd ret];
          [| apply (Hfallback w2 [(a, Ok response)]); try reflexivity;
             apply Hbad; unfold completion_content; by rewrite H1, H2].
        destruct (getattr choice "message") as [message|e] eqn:H3; cbn [fst snd ret];
          [| apply (Hfallback w2 [(a, Ok response)]); try reflexivity;
             apply Hbad; unfold completion_content; by rewrite H1, H2, H3].
        destruct (getattr message "content") as [sentiment|e] eqn:H4; cbn [fst snd ret];
          [| apply (Hfallback w2 [(a, Ok response)]); try reflexivity;
             apply Hbad; unfold completion_content; by rewrite H1, H2, H3, H4].
        assert (Hcontent : completion_content response = Ok sentiment).
        { unfold completion_content. by rewrite H1, H2, H3. }
        destruct (redis_setex_run env key 300 sentiment w2)
          as [(e & w3 & -> & Hw3 & Hs3) | (b & Hencode & ->)]; cbn [fst snd ret].
        -- apply (Hfallback w3 [(a, Ok response); (RedisSetex key 300 sentiment, Raise e)]).
           ++ rewrite Hw3, Hw2, <- app_assoc. reflexivity.
           ++ reflexivity.
           ++ exact Hs3.
           ++ reflexivity.
           ++ cbn [existsb]. apply orb_true_iff. right. apply orb_true_iff. right.
              reflexivity.
        -- eexists sentiment, [_; _; _].
           split; [reflexivity|]. split; [|split].
           ++ cbn [trace]. rewrite Hw2, Hw1, <- !app_assoc. reflexivity.
           ++ reflexivity.
           ++ right. right. exists cached, response, b.
              split; [reflexivity|]. split; [exact Htruthy|]. split; [exact Hcontent|].
              split; [exact Hencode|]. reflexivity.
      * apply (Hfallback (record a (Raise e) (now w1 + latency env (trace w1) a) w1)
                 [(a, Raise e)]); try reflexivity.
        cbn [existsb]. apply orb_true_iff. right. reflexivity.
  - apply (Hfallback w1 []); [by rewrite app_nil_r | reflexivity | exact Hs1 | reflexivity |].
    reflexivity.
Qed.

Lemma analyze_sentiment_cases (env : Env) (self : trading_bot.TradingBot)
    (symbol : PyVal) (w : World) :
  let key := "sentiment:" +:+ py_str env symbol in
  let run := trading_bot.analyze_sentiment env self symbol w in
  exists (v : PyVal) (new : list Event),
    run.1 = Ok v
    /\ trace run.2 = trace w ++ new
    /\ omap sent_chat new = []
    /\ ((v = VStr "Sentiment analysis unavailable" /\ store run.2 = store w
         /\ forallb (fun ev => negb (is_stored ev)) new = true)
        \/ (exists b expiry,
              new = [(RedisGet key, Ok (VBytes b))]
              /\ b <> "" /\ utf8_valid b = true /\ v = VStr b
              /\ store run.2 = store w
              /\ store w !! key = Some (b, expiry) /\ now run.2 < expiry)
        \/ (exists cached response b,
              new = [(RedisGet key, Ok cached); (ask env symbol, Ok response);
                     (RedisSetex key 300 v, Ok (VBool true))]
              /\ py_truthy cached = false
              /\ completion_content response = Ok v
              /\ redis_encode env v = Ok b
              /\ store run.2 = <[key := (b, now run.2 + 300)]> (store w))).
Proof.
  intros key run.
  destruct (analyze_sentiment_outcome env self symbol w)
    as (v & new & Hrun & Htrace & Hsent & Hcases).
  exists v, new. split; [exact Hrun|]. split; [exact Htrace|]. split; [exact Hsent|].
  destruct Hcases as [(Hv & Hstore & Hnone & _) | [Hhit | Hfresh]].
  - left. by repeat split.
  - right. left. exact Hhit.
  - right. right. exact Hfresh.
Qed.

(** C3 as stated fails: when the model answers with an empty text,
    [analyze_sentiment] stores it and returns the empty string. *)
Lemma analyze_sentiment_can_return_empty :
  (trading_bot.analyze_sentiment (env_up "" []) bot_ready (VStr "EURUSD") world0).1
  = Ok (VStr "").
Proof. reflexivity. Qed.

(** C3, amended.  For every symbol string [analyze_sentiment] returns a
    value and never raises.  When a call it made raised (the cache
    read, the completion request, the cache write), the response had no
    [choices[0].message.content] or the cached bytes were not UTF-8,
    the value is exactly the fallback string.  Otherwise the run is one
    of two: a single cache read that found a live entry, whose bytes
    are not empty and are returned decoded; or a cache read that found
    nothing usable, one completion request and one cache write, with
    the completion text returned exactly as the API gave it.  Only that
    text can be empty. *)
Theorem analyze_sentiment_never_raises (env : Env) (self : trading_bot.TradingBot)
    (s : string) (w : World) :
  let key := "sentiment:" +:+ s in
  let run := trading_bot.analyze_sentiment env self (VStr s) w in
  let new := events_since w run.2 in
  exists v : PyVal,
    run.1 = Ok v
    /\ if existsb fetch_failed new
       then v = VStr "Sentiment analysis unavailable"
       else (exists b expiry,
               new = [(RedisGet key, Ok (VBytes b))]
               /\ store w !! key = Some (b, expiry) /\ now run.2 < expiry
               /\ b <> "" /\ v = VStr b)
            \/ (exists cached response,
                  new = [(RedisGet key, Ok cached); (ask env (VStr s), Ok response);
                         (RedisSetex key 300 v, Ok (VBool true))]
                  /\ py_truthy cached = false
                  /\ completion_content response = Ok v).
Proof.
  intros key run new.
  destruct (analyze_sentiment_outcome env self (VStr s) w)
    as (v & evs & Hrun & Htrace & _ & Hcases).
  fold run in Hrun, Htrace, Hcases.
  change ("sentiment:" +:+ py_str env (VStr s)) with key in Hcases.
  assert (Hnew : new = evs) by (by apply events_since_app).
  rewrite Hnew. clear Hnew new.
  exists v. split; [exact Hrun|].
  destruct Hcases as [(-> & _ & _ & ->) | [(b & expiry & -> & Hne & Hvalid & -> & _ & Hstore & Hlive)
                                 | (cached & response & b & -> & Hfalsy & Hcontent & _)]].
  - reflexivity.
  - cbn [existsb fetch_failed]. rewrite Hvalid. cbn [negb orb].
    left. by exists b, expiry.
  - assert (Hmiss : fetch_failed (RedisGet key, Ok cached) = false).
    { cbn [fetch_failed]. destruct cached as [ | ? | ? | ? | ? | bs | ? | ? | ? ]; try reflexivity.
      destruct bs; [reflexivity | cbn in Hfalsy; discriminate]. }
    cbn [existsb]. rewrite Hmiss.
    cbn [fetch_failed ask]. rewrite Hcontent. cbn [is_raise orb].
    right. by exists cached, response.
Qed.

Lemma analyze_sentiment_hit (env : Env) (self : trading_bot.TradingBot)
    (symbol : PyVal) (b : string) (expiry : Z) (w : World) :
  let key := "sentiment:" +:+ py_str env symbol in
  let c := RedisGet key in
  store w !! key = Some (b, expiry) ->
  now w + latency env (trace w) c < expiry ->
  is_raise (reply env (trace w) c) = false ->
  b <> "" ->
  trading_bot.analyze_sentiment env self symbol w
  = (if utf8_valid b then Ok (VStr b) else Ok (VStr "Sentiment analysis unavailable"),
     record c (Ok (VBytes b)) (now w + latency env (trace w) c) w).
Proof.
  intros key c Hstore Hlive Hup Hne.
  unfold trading_bot.analyze_sentiment, try_except, bind, redis_get.
  cbv zeta. fold key. fold c. rewrite Hstore.
  destruct (reply env (trace w) c); [|discriminate].
  apply Z.ltb_lt in Hlive. rewrite Hlive.
  assert (Htruthy : py_truthy (VBytes b) = true).
  { destruct b; [congruence | reflexivity]. }
  rewrite Htruthy. unfold lift, py_decode, ret.
  destruct (utf8_valid b); reflexivity.
Qed.

(** A fetch that goes through, read off the environment: the cache
    read returns nothing usable, the API answers with a completion
    that has a content, the cache client can encode that content and
    the cache accepts the write. *)
Lemma analyze_sentiment_fresh (env : Env) (self : trading_bot.TradingBot)
    (symbol cached response sentiment : PyVal) (b : string) (w : World) :
  let key := "sentiment:" +:+ py_str env symbol in
  let g := RedisGet key in
  let a := ask env symbol in
  let c := RedisSetex key 300 sentiment in
  (redis_get env key w).1 = Ok cached ->
  py_truthy cached = false ->
  reply env (trace w ++ [(g, Ok cached)]) a = Ok response ->
  completion_content response = Ok sentiment ->
  redis_encode env sentiment = Ok b ->
  is_raise (reply env (trace w ++ [(g, Ok cached); (a, Ok response)]) c) = false ->
  let run := trading_bot.analyze_sentiment env self symbol w in
  run.1 = Ok sentiment
  /\ events_since w run.2 = [(g, Ok cached); (a, Ok response); (c, Ok (VBool true))]
  /\ store run.2 = <[key := (b, now run.2 + 300)]> (store w).
Proof.
  intros key g a c Hget Hfalsy Hask Hcontent Hencode Hset run. subst run.
  unfold trading_bot.analyze_sentiment, try_except, bind. cbv zeta. fold key.
  destruct (redis_get_run env key w) as (r & Hrun & _).
  rewrite Hrun in Hget |- *. cbn [fst] in Hget. subst r. fold g.
  rewrite Hfalsy.
  unfold external. fold (ask env symbol). fold a.
  set (w1 := record g (Ok cached) _ w).
  change (trace w1) with (trace w ++ [(g, Ok cached)]).
  rewrite Hask. unfold lift.
  unfold completion_content in Hcontent.
  destruct (getattr response "choices") as [choices|e]; [|discriminate].
  destruct (subscript_int choices 0) as [choice|e]; [|discriminate].
  destruct (getattr choice "message") as [message|e]; [|discriminate].
  rewrite Hcontent. cbn [fst snd ret].
  unfold redis_setex. rewrite Hencode. fold c.
  assert (Ht : trace w1 ++ [(a, Ok response)]
               = trace w ++ [(g, Ok cached); (a, Ok response)]).
  { unfold w1. cbn [record trace]. by rewrite <- app_assoc. }
  cbn [record trace]. rewrite !Ht.
  destruct (reply env (trace w ++ [(g, Ok cached); (a, Ok response)]) c); [|discriminate].
  unfold ret. cbn [fst snd store now trace].
  split; [reflexivity|]. split; [|reflexivity].
  apply events_since_app. by rewrite <- app_assoc.
Qed.

(** C7 as stated fails: the model answers with an empty text, the two
    calls are made at the same instant with a working cache, the first
    writes the entry [sentiment:EURUSD] with a 300-second expiry, and
    the second still makes a completion request, because the empty
    cached value is read as a miss. *)
Lemma two_fetches_two_requests :
  let first := trading_bot.analyze_sentiment (env_up "" []) bot_ready (VStr "EURUSD") world0 in
  let second := trading_bot.analyze_sentiment (env_up "" []) bot_ready (VStr "EURUSD") first.2 in
  store first.2 !! "sentiment:EURUSD" = Some ("", now first.2 + 300)
  /\ now second.2 < now first.2 + 300
  /\ List.length (List.filter is_completion (trace second.2)) = 2%nat.
Proof. vm_compute. split; [reflexivity | split; reflexivity]. Qed.

(** C7, amended.  Take a first call whose fetch goes through: its
    cache read does not raise and finds nothing usable, the API
    answers the completion request with a text that is not empty, and
    the cache accepts a write.  That call makes one completion
    request, returns the text, and leaves it in the cache under
    [sentiment:<symbol>] with an expiry 300 seconds after the write.
    A later call whose cache read happens before that expiry, does not
    raise and finds the entry untouched makes that one read and
    nothing else, and returns the text decoded; the two calls together
    made one completion request.  (The bytes of a [str] are always
    valid UTF-8; for bytes that are not, the decoding fails and the
    later call returns the fallback string, still without a
    request.) *)
Theorem second_fetch_is_a_cache_hit (env : Env) (self : trading_bot.TradingBot)
    (s text : string) (cached response : PyVal) (w : World) :
  let key := "sentiment:" +:+ s in
  let first := trading_bot.analyze_sentiment env self (VStr s) w in
  (redis_get env key w).1 = Ok cached ->
  py_truthy cached = false ->
  reply env (trace w ++ [(RedisGet key, Ok cached)]) (ask env (VStr s)) = Ok response ->
  completion_content response = Ok (VStr text) ->
  is_raise (reply env (trace w ++ [(RedisGet key, Ok cached); (ask env (VStr s), Ok response)])
              (RedisSetex key 300 (VStr text))) = false ->
  text <> "" ->
  first.1 = Ok (VStr text)
  /\ events_since w first.2
     = [(RedisGet key, Ok cached); (ask env (VStr s), Ok response);
        (RedisSetex key 300 (VStr text), Ok (VBool true))]
  /\ store first.2 !! key = Some (text, now first.2 + 300)
  /\ forall w2 : World,
       store w2 !! key = store first.2 !! key ->
       now w2 + latency env (trace w2) (RedisGet key) < now first.2 + 300 ->
       is_raise (reply env (trace w2) (RedisGet key)) = false ->
       let second := trading_bot.analyze_sentiment env self (VStr s) w2 in
       second.1 = Ok (VStr (if utf8_valid text then text else "Sentiment analysis unavailable"))
       /\ events_since w2 second.2 = [(RedisGet key, Ok (VBytes text))]
       /\ List.length (List.filter is_completion
            (events_since w first.2 ++ events_since w2 second.2)) = 1%nat.
Proof.
  intros key first Hget Hfalsy Hask Hcontent Hset Hne.
  destruct (analyze_sentiment_fresh env self (VStr s) cached response (VStr text) text w
              Hget Hfalsy Hask Hcontent eq_refl Hset) as (Hrun & Hevents & Hstore).
  fold first in Hrun, Hevents, Hstore.
  change ("sentiment:" +:+ py_str env (VStr s)) with key in Hevents, Hstore.
  assert (Hentry : store first.2 !! key = Some (text, now first.2 + 300)).
  { rewrite Hstore. apply lookup_insert_eq. }
  split; [exact Hrun|]. split; [exact Hevents|]. split; [exact Hentry|].
  intros w2 Hsame Hlive Hup second. subst second.
  rewrite Hentry in Hsame.
  rewrite (analyze_sentiment_hit env self (VStr s) text (now first.2 + 300) w2
             Hsame Hlive Hup Hne).
  cbn [fst snd].
  rewrite (events_since_app w2 _ [(RedisGet key, Ok (VBytes text))]) by reflexivity.
  rewrite Hevents.
  split; [by destruct (utf8_valid text) |]. split; reflexivity.
Qed.

Lemma second_fetch_is_a_cache_hit_witness :
  (trading_bot.analyze_sentiment (env_up "Bullish" []) bot_ready (VStr "EURUSD") world0).1
  = Ok (VStr "Bullish")
  /\ events_since world0
       (trading_bot.analyze_sentiment (env_up "Bullish" []) bot_ready (VStr "EURUSD") world0).2
     = [(RedisGet "sentiment:EURUSD", Ok VNone);
        (ask (env_up "Bullish" []) (VStr "EURUSD"), Ok (completion (VStr "Bullish")));
        (RedisSetex "sentiment:EURUSD" 300 (VStr "Bullish"), Ok (VBool true))]
  /\ store (trading_bot.analyze_sentiment (env_up "Bullish" []) bot_ready
              (VStr "EURUSD") world0).2 !! "sentiment:EURUSD"
     = Some ("Bullish",
             now (trading_bot.analyze_sentiment (env_up "Bullish" []) bot_ready
                    (VStr "EURUSD") world0).2 + 300)
  /\ forall w2 : World,
       store w2 !! "sentiment:EURUSD"
       = store (trading_bot.analyze_sentiment (env_up "Bullish" []) bot_ready
                  (VStr "EURUSD") world0).2 !! "sentiment:EURUSD" ->
       now w2 + latency (env_up "Bullish" []) (trace w2) (RedisGet "sentiment:EURUSD")
       < now (trading_bot.analyze_sentiment (env_up "Bullish" []) bot_ready
                (VStr "EURUSD") world0).2 + 300 ->
       is_raise (reply (env_up "Bullish" []) (trace w2) (RedisGet "sentiment:EURUSD")) = false ->
       (trading_bot.analyze_sentiment (env_up "Bullish" []) bot_ready (VStr "EURUSD") w2).1
       = Ok (VStr (if utf8_valid "Bullish" then "Bullish" else "Sentiment analysis unavailable"))
       /\ events_since w2
            (trading_bot.analyze_sentiment (env_up "Bullish" []) bot_ready
               (VStr "EURUSD") w2).2
          = [(RedisGet "sentiment:EURUSD", Ok (VBytes "Bullish"))]
       /\ List.length (List.filter is_completion
            (events_since world0
               (trading_bot.analyze_sentiment (env_up "Bullish" []) bot_ready
                  (VStr "EURUSD") world0).2
             ++ events_since w2
                  (trading_bot.analyze_sentiment (env_up "Bullish" []) bot_ready
                     (VStr "EURUSD") w2).2)) = 1%nat.
Proof.
  apply (second_fetch_is_a_cache_hit (env_up "Bullish" []) bot_ready "EURUSD" "Bullish"
           VNone (completion (VStr "Bullish")) world0).
  - reflexivity.
  - reflexivity.
  - reflexivity.
  - reflexivity.
  - reflexivity.
  - discriminate.
Defined.

(** *** The notification dispatcher *)

Lemma silent_refl (w : World) {A} (r : Result A) : silent w r w.
Proof. exists []. split; [by rewrite app_nil_r | reflexivity]. Qed.

Lemma silent_record (w w1 : World) {A} (r : Result A) (c : Call) (x : Result PyVal) (t : Z) :
  silent w r w1 -> sent_chat (c, x) = None -> silent w r (record c x t w1).
Proof.
  intros (new & Htrace & Hnone) Hc. exists (new ++ [(c, x)]). split.
  - cbn [record trace]. rewrite Htrace, <- app_assoc. reflexivity.
  - rewrite omap_app, Hnone. cbn [omap list_omap]. rewrite Hc. reflexivity.
Qed.

Ltac silence :=
  repeat first [apply silent_refl | apply silent_record; [|reflexivity]].

Lemma list_comp_pure {X Y} (f : X -> M Y) (xs : list X) (w : World) :
  (forall x w', (f x w').2 = w') -> (list_comp f xs w).2 = w.
Proof.
  intros Hf. induction xs as [|x xs IH]; [reflexivity|].
  cbn [list_comp]. unfold bind at 1.
  specialize (Hf x w). destruct (f x w) as [[y|e] w']; cbn [snd] in Hf; subst w';
    [|reflexivity].
  unfold bind. destruct (list_comp f xs w) as [[ys|e] w'];
    cbn [snd] in IH; subst w'; reflexivity.
Qed.

Lemma wp_list_comp_pure {X Y} (f : X -> M Y) (xs : list X) (w : World)
    (Q : Result (list Y) -> World -> Prop) :
  (forall x w', (f x w').2 = w') -> (forall r, Q r w) -> wp (list_comp f xs) w Q.
Proof. intros Hf HQ. unfold wp. rewrite (list_comp_pure f xs w Hf). apply HQ. Qed.

Lemma match_subscribers_run (env : Env) (self : trading_bot.TradingBot)
    (signal : PyVal) (w : World) :
  let run := trading_bot.match_subscribers env self signal w in
  (exists chat_ids, run.1 = Ok chat_ids) /\ silent w run.1 run.2.
Proof.
  cbv zeta.
  change (wp (trading_bot.match_subscribers env self signal) w
            (fun r w' => (exists chat_ids, r = Ok chat_ids) /\ silent w r w')).
  unfold trading_bot.match_subscribers.
  assert (Hnil : forall w', silent w (Ok ([] : list string)) w' ->
            (exists chat_ids : list string, Ok [] = Ok chat_ids)
            /\ silent w (Ok ([] : list string)) w').
  { intros w' H. split; [by exists [] | exact H]. }
  wp_run; try (apply Hnil; silence).
  apply wp_list_comp_pure.
  - intros pref w'. unfold bind, lift, ret.
    destruct (subscript pref "user_id"); reflexivity.
  - intros [ids|e].
    + split; [by exists ids |]. silence.
    + apply wp_ret, Hnil. silence.
Qed.

(** With an initialised bot and a signal that has its fields, one call
    of [send_signal_message] is one [send_message] to the chat, and it
    returns normally whatever Telegram answers. *)
Lemma send_signal_message_run (env : Env) (self : trading_bot.TradingBot)
    (b : trading_bot.Bot) (chat_id signal sentiment symbol timeframe action price : PyVal)
    (w : World) :
  trading_bot._bot self = Some b ->
  subscript signal "symbol" = Ok symbol ->
  subscript signal "timeframe" = Ok timeframe ->
  subscript signal "action" = Ok action ->
  subscript signal "price" = Ok price ->
  let run := trading_bot.send_signal_message env self chat_id signal sentiment w in
  run.1 = Ok VNone
  /\ exists ev, trace run.2 = trace w ++ [ev] /\ sent_chat ev = Some chat_id.
Proof.
  intros Hbot Hsymbol Htimeframe Haction Hprice.
  unfold trading_bot.send_signal_message, trading_bot.send_message.
  unfold try_except, bind, lift, external, ret.
  rewrite Hsymbol, Htimeframe, Haction, Hprice, Hbot.
  cbv beta iota zeta.
  match goal with
  | |- context [reply env (trace w) ?c] => destruct (reply env (trace w) c)
  end; (split; [reflexivity |]; eexists; split; reflexivity).
Qed.

(** Without those assumptions it still returns normally. *)
Lemma send_signal_message_total (env : Env) (self : trading_bot.TradingBot)
    (chat_id signal sentiment : PyVal) (w : World) :
  (trading_bot.send_signal_message env self chat_id signal sentiment w).1 = Ok VNone.
Proof.
  change (wp (trading_bot.send_signal_message env self chat_id signal sentiment) w
            (fun r _ => r = Ok VNone)).
  unfold trading_bot.send_signal_message, trading_bot.send_message.
  wp_run; reflexivity.
Qed.

Lemma send_all_total (env : Env) (self : trading_bot.TradingBot)
    (signal sentiment : PyVal) (chat_ids : list string) (w : World) :
  (send_all env self signal sentiment chat_ids w).1 = Ok tt.
Proof.
  revert w. induction chat_ids as [|chat_id rest IH]; intros w; [reflexivity|].
  unfold send_all. cbn [for_in]. unfold bind at 1. unfold bind at 1.
  pose proof (send_signal_message_total env self (VStr chat_id) signal sentiment w) as Hone.
  destruct (trading_bot.send_signal_message env self (VStr chat_id) signal sentiment w)
    as [r w1]. cbn [fst] in Hone. subst r.
  unfold ret at 1. apply IH.
Qed.

Lemma send_all_run (env : Env) (self : trading_bot.TradingBot)
    (b : trading_bot.Bot) (signal sentiment symbol timeframe action price : PyVal)
    (chat_ids : list string) (w : World) :
  trading_bot._bot self = Some b ->
  subscript signal "symbol" = Ok symbol ->
  subscript signal "timeframe" = Ok timeframe ->
  subscript signal "action" = Ok action ->
  subscript signal "price" = Ok price ->
  exists new,
    trace (send_all env self signal sentiment chat_ids w).2 = trace w ++ new
    /\ omap sent_chat new = map VStr chat_ids.
Proof.
  intros Hbot Hsymbol Htimeframe Haction Hprice.
  revert w. induction chat_ids as [|chat_id rest IH]; intros w.
  - exists []. split; [by rewrite app_nil_r | reflexivity].
  - unfold send_all. cbn [for_in]. unfold bind at 1. unfold bind at 1.
    destruct (send_signal_message_run env self b (VStr chat_id) signal sentiment
                symbol timeframe action price w Hbot Hsymbol Htimeframe Haction Hprice)
      as (Hok & ev & Htrace & Hchat).
    destruct (trading_bot.send_signal_message env self (VStr chat_id) signal sentiment w)
      as [r w1]. cbn [fst snd] in Hok, Htrace. subst r.
    unfold ret at 1.
    destruct (IH w1) as (new & Hrest & Hsent).
    exists (ev :: new). split.
    + unfold send_all in Hrest. rewrite Hrest, Htrace, <- app_assoc. reflexivity.
    + cbn [omap list_omap map]. rewrite Hchat. cbn [map]. f_equal. exact Hsent.
Qed.

(** C6.  For a signal with its fields and an initialised bot: whatever
    list of chats [match_subscribers] returns and whatever Telegram
    answers to each send, [process_signal] returns normally, makes one
    [send_message] call per chat, in order, and reports [sent_to] equal
    to the number of those chats.  With an empty list it makes no send
    and reports 0. *)
Theorem process_signal_sends_to_every_subscriber (env : Env)
    (self : trading_bot.TradingBot) (b : trading_bot.Bot)
    (signal symbol timeframe action price : PyVal) (w : World) :
  trading_bot._bot self = Some b ->
  subscript signal "symbol" = Ok symbol ->
  subscript signal "timeframe" = Ok timeframe ->
  subscript signal "action" = Ok action ->
  subscript signal "price" = Ok price ->
  let run := trading_bot.process_signal env self signal w in
  exists (chat_ids : list string) (sentiment : PyVal),
    (trading_bot.match_subscribers env self signal w).1 = Ok chat_ids
    /\ run.1 = Ok (VDict [("status", VStr "success");
                          ("sent_to", VInt (Z.of_nat (List.length chat_ids)));
                          ("signal", signal);
                          ("sentiment", sentiment)])
    /\ omap sent_chat (events_since w run.2) = map VStr chat_ids.
Proof.
  intros Hbot Hsymbol Htimeframe Haction Hprice run.
  assert (Hrun : exists (chat_ids : list string) (sentiment : PyVal) (w3 : World) new,
    (trading_bot.match_subscribers env self signal w).1 = Ok chat_ids
    /\ run = (Ok (VDict [("status", VStr "success");
                         ("sent_to", VInt (Z.of_nat (List.length chat_ids)));
                         ("signal", signal);
                         ("sentiment", sentiment)]), w3)
    /\ trace w3 = trace w ++ new
    /\ omap sent_chat new = map VStr chat_ids).
  { subst run.
    destruct (match_subscribers_run env self signal w)
      as ((chat_ids & Hids) & (new1 & Htrace1 & Hsent1)).
    unfold trading_bot.process_signal, try_except. unfold bind at 1.
    destruct (trading_bot.match_subscribers env self signal w) as [r1 w1].
    cbn [fst snd] in Hids, Htrace1. subst r1.
    unfold bind at 1. unfold lift at 1. rewrite Hsymbol.
    unfold bind at 1.
    destruct (analyze_sentiment_cases env self symbol w1)
      as (sentiment & new2 & Hsentiment & Htrace2 & Hsent2 & _).
    destruct (trading_bot.analyze_sentiment env self symbol w1) as [r2 w2].
    cbn [fst snd] in Hsentiment, Htrace2. subst r2.
    unfold bind at 1.
    fold (send_all env self signal sentiment chat_ids).
    pose proof (send_all_total env self signal sentiment chat_ids w2) as Hloop.
    destruct (send_all_run env self b signal sentiment symbol timeframe action price
                chat_ids w2 Hbot Hsymbol Htimeframe Haction Hprice)
      as (new3 & Htrace3 & Hsent3).
    destruct (send_all env self signal sentiment chat_ids w2) as [r3 w3].
    cbn [fst snd] in Hloop, Htrace3. subst r3.
    unfold ret.
    exists chat_ids, sentiment, w3, (new1 ++ new2 ++ new3).
    split; [reflexivity|]. split; [reflexivity|]. split.
    - rewrite Htrace3, Htrace2, Htrace1, <- !app_assoc. reflexivity.
    - rewrite !omap_app, Hsent1, Hsent2, Hsent3. reflexivity. }
  destruct Hrun as (chat_ids & sentiment & w3 & new & Hids & -> & Htrace & Hsent).
  exists chat_ids, sentiment.
  split; [exact Hids|]. split; [reflexivity|].
  cbn [snd]. by rewrite (events_since_app w w3 new Htrace).
Qed.

(** The instance of C6 with no subscriber: the directory answers with
    zero rows, no message is sent and [sent_to] is 0. *)
Lemma process_signal_no_subscriber :
  let run := trading_bot.process_signal (env_up "Bullish" []) bot_ready signal_eurusd world0 in
  run.1 = Ok (VDict [("status", VStr "success"); ("sent_to", VInt 0);
                     ("signal", signal_eurusd); ("sentiment", VStr "Bullish")])
  /\ omap sent_chat (trace run.2) = [].
Proof. vm_compute. split; reflexivity. Qed.

(** One subscriber blocks the bot, the other two still get their
    message. *)
Lemma process_signal_witness :
  exists (chat_ids : list string) (sentiment : PyVal),
    (trading_bot.match_subscribers env_one_blocked bot_ready signal_eurusd world0).1
    = Ok chat_ids
    /\ (trading_bot.process_signal env_one_blocked bot_ready signal_eurusd world0).1
       = Ok (VDict [("status", VStr "success");
                    ("sent_to", VInt (Z.of_nat (List.length chat_ids)));
                    ("signal", signal_eurusd);
                    ("sentiment", sentiment)])
    /\ omap sent_chat
         (events_since world0
            (trading_bot.process_signal env_one_blocked bot_ready signal_eurusd world0).2)
       = map VStr chat_ids.
Proof.
  apply (process_signal_sends_to_every_subscriber env_one_blocked bot_ready
           {| trading_bot.bot_token := VStr "t" |} signal_eurusd
           (VStr "EURUSD") (VStr "1h") (VStr "BUY") (VFloat price_eurusd) world0);
    reflexivity.
Defined.

(** *** The chart capture *)

Lemma wp_webdriver_Chrome (env : Env) (options : Options) (w : World)
    (Q : Result nat -> World -> Prop) :
  let c := ChromeLaunch options in
  let t := now w + latency env (trace w) c in
  let d := List.length (List.filter chart_main.is_launch (trace w)) in
  (forall e, Q (Raise e) (record c (Raise e) t w)) ->
  Q (Ok d) (record c (Ok (VInt (Z.of_nat d))) t w) ->
  wp (chart_main.webdriver_Chrome env options) w Q.
Proof.
  intros c t d Hraise Hok. unfold wp, chart_main.webdriver_Chrome.
  fold c. fold t. fold d.
  destruct (reply env (trace w) c); [exact Hok | apply Hraise].
Qed.

Ltac attempt_leaf :=
  eexists;
  split; [cbn [record trace]; rewrite <- ?app_assoc; reflexivity |];
  split;
  [ split; [reflexivity |];
    split; [reflexivity |];
    split; [first [left; reflexivity | right; reflexivity] |];
    cbn [omap list_omap loaded_url fst]; repeat constructor
  | first [left; reflexivity | right; reflexivity] ].

Lemma capture_attempt_run (env : Env) (symbol : string) (max_retries attempt : Z)
    (w : World) :
  let run := chart_main.capture_attempt env symbol max_retries attempt w in
  let d := List.length (List.filter chart_main.is_launch (trace w)) in
  exists new,
    trace run.2 = trace w ++ new
    /\ attempt_events symbol d new
    /\ (captured run.1 = true
        \/ run.1 = Ok (if attempt <? max_retries - 1 then Continue
                       else Return (VNone, false))).
Proof.
  cbv zeta.
  set (d := List.length (List.filter chart_main.is_launch (trace w))).
  change (wp (chart_main.capture_attempt env symbol max_retries attempt) w
    (fun r w' => exists new,
       trace w' = trace w ++ new
       /\ attempt_events symbol d new
       /\ (captured r = true
           \/ r = Ok (if attempt <? max_retries - 1 then Continue
                      else Return (VNone, false))))).
  unfold chart_main.capture_attempt, chart_main.setup_driver.
  cbv zeta. fold (chart_url symbol).
  wp_step. wp_step. wp_step. wp_step.
  apply wp_webdriver_Chrome; fold d; [intros e |]; wp_run.
  all: attempt_leaf.
Qed.

Lemma count_app (p : Event -> bool) (l1 l2 : list Event) :
  count p (l1 ++ l2) = (count p l1 + count p l2)%nat.
Proof. unfold count. by rewrite List.filter_app, length_app. Qed.

Lemma captured_true (r : Result (LoopCtl (PyVal * bool))) :
  captured r = true -> exists png, r = Ok (Return (png, true)).
Proof.
  destruct r as [[|[png [|]]]|e]; try discriminate. intros _. by exists png.
Qed.

Lemma capture_loop_cons (env : Env) (symbol : string) (max_retries attempt : Z)
    (rest : list Z) (w : World) :
  capture_loop env symbol max_retries (attempt :: rest) w
  = match chart_main.capture_attempt env symbol max_retries attempt w with
    | (Ok Continue, w1) => capture_loop env symbol max_retries rest w1
    | (Ok (Return r), w1) => (Ok r, w1)
    | (Raise e, w1) => (Raise e, w1)
    end.
Proof.
  unfold capture_loop. cbn [for_in]. unfold bind.
  destruct (chart_main.capture_attempt env symbol max_retries attempt w)
    as [[[|r]|e] w1]; reflexivity.
Qed.

(** Invariants of the capture loop, whatever the attempts do. *)
Lemma capture_loop_run (env : Env) (symbol : string) (max_retries : Z)
    (attempts : list Z) (w : World) :
  let run := capture_loop env symbol max_retries attempts w in
  exists new,
    trace run.2 = trace w ++ new
    /\ (exists v, run.1 = Ok v)
    /\ count is_quit new = count is_setup_done new
    /\ Forall (eq (chart_url symbol)) (omap loaded_url new)
    /\ Forall (fun d => (count chart_main.is_launch (trace w) <= d)%nat)
              (omap quit_driver new)
    /\ NoDup (omap quit_driver new).
Proof.
  revert w. induction attempts as [|attempt rest IH]; intros w.
  - exists []. cbn [capture_loop for_in ret fst snd].
    split; [by rewrite app_nil_r|]. split; [by eexists|].
    split; [reflexivity|]. repeat split; constructor.
  - destruct (capture_attempt_run env symbol max_retries attempt w)
      as (new1 & Htrace1 & (Hlaunch & Hquit & Hdrivers & Hurls) & Hresult).
    cbv zeta. rewrite capture_loop_cons.
    destruct (chart_main.capture_attempt env symbol max_retries attempt w)
      as [r1 w1]. cbn [fst snd] in Htrace1, Hresult.
    fold (count chart_main.is_launch (trace w)) in Hdrivers.
    assert (Hfresh : Forall (fun d => (count chart_main.is_launch (trace w) <= d)%nat)
                       (omap quit_driver new1)).
    { destruct Hdrivers as [-> | ->]; repeat constructor. }
    assert (Hnodup : NoDup (omap quit_driver new1)).
    { destruct Hdrivers as [-> | ->]; repeat constructor. by intros ?%elem_of_nil. }
    assert (Hstop : forall v : PyVal * bool,
      exists new,
        trace ((Ok v, w1) : Result (PyVal * bool) * World).2 = trace w ++ new
        /\ (exists v', ((Ok v, w1) : Result (PyVal * bool) * World).1 = Ok v')
        /\ count is_quit new = count is_setup_done new
        /\ Forall (eq (chart_url symbol)) (omap loaded_url new)
        /\ Forall (fun d => (count chart_main.is_launch (trace w) <= d)%nat)
                  (omap quit_driver new)
        /\ NoDup (omap quit_driver new)).
    { intros v. exists new1. cbn [fst snd]. split; [exact Htrace1|]. split; [by exists v|].
      auto. }
    assert (Hgo : r1 = Ok Continue ->
      exists new,
        trace (capture_loop env symbol max_retries rest w1).2 = trace w ++ new
        /\ (exists v', (capture_loop env symbol max_retries rest w1).1 = Ok v')
        /\ count is_quit new = count is_setup_done new
        /\ Forall (eq (chart_url symbol)) (omap loaded_url new)
        /\ Forall (fun d => (count chart_main.is_launch (trace w) <= d)%nat)
                  (omap quit_driver new)
        /\ NoDup (omap quit_driver new)).
    { intros _. destruct (IH w1) as (new2 & Htrace2 & Hok2 & Hquit2 & Hurls2 & Hfresh2 & Hnodup2).
      exists (new1 ++ new2).
      split; [by rewrite Htrace2, Htrace1, <- app_assoc|]. split; [exact Hok2|].
      split; [by rewrite !count_app, Hquit, Hquit2|].
      rewrite !omap_app.
      split; [by apply Forall_app|].
      rewrite Htrace1, count_app, Hlaunch in Hfresh2.
      split.
      - apply Forall_app. split; [exact Hfresh|].
        eapply Forall_impl; [exact Hfresh2|]. intros d Hd. cbv beta in Hd. lia.
      - apply NoDup_app. split; [exact Hnodup|]. split; [|exact Hnodup2].
        intros d Hin1 Hin2.
        rewrite Forall_forall in Hfresh2. specialize (Hfresh2 d Hin2).
        cbv beta in Hfresh2.
        destruct Hdrivers as [Hd | Hd]; rewrite Hd in Hin1.
        + by apply elem_of_nil in Hin1.
        + apply list_elem_of_singleton in Hin1. lia. }
    destruct Hresult as [Hcap | ->].
    + apply captured_true in Hcap as [png ->]. exact (Hstop (png, true)).
    + destruct (attempt <? max_retries - 1);
        [exact (Hgo eq_refl) | exact (Hstop (VNone, false))].
Qed.

Lemma capture_loop_all_fail (env : Env) (symbol : string) (max_retries : Z)
    (n k : nat) (w : World) :
  Z.of_nat (k + n) = max_retries ->
  every_attempt_fails env symbol max_retries (map Z.of_nat (seq k n)) w ->
  let run := capture_loop env symbol max_retries (map Z.of_nat (seq k n)) w in
  run.1 = Ok (VNone, false)
  /\ count chart_main.is_launch (events_since w run.2) = n.
Proof.
  revert k w. induction n as [|n IH]; intros k w Hmax Hfail.
  - split; reflexivity || (unfold events_since; cbn; by rewrite drop_all).
  - cbn [seq map] in Hfail |- *. destruct Hfail as [Hfailed Hrest]. cbv zeta.
    rewrite capture_loop_cons.
    destruct (capture_attempt_run env symbol max_retries (Z.of_nat k) w)
      as (new1 & Htrace1 & (Hlaunch & _) & Hresult).
    destruct (chart_main.capture_attempt env symbol max_retries (Z.of_nat k) w)
      as [r1 w1]. cbn [fst snd] in Htrace1, Hresult, Hfailed, Hrest.
    destruct Hresult as [Hcap | ->]; [congruence|].
    destruct n as [|n].
    + (* the last attempt *)
      assert (Hlast : (Z.of_nat k <? max_retries - 1) = false) by (apply Z.ltb_ge; lia).
      rewrite Hlast. cbn [fst snd]. split; [reflexivity|].
      by rewrite (events_since_app w w1 new1 Htrace1).
    + assert (Hmore : (Z.of_nat k <? max_retries - 1) = true) by (apply Z.ltb_lt; lia).
      rewrite Hmore.
      destruct (IH (S k) w1) as [Hnone Hcount]; [lia | exact Hrest |].
      destruct (capture_loop_run env symbol max_retries
                  (map Z.of_nat (seq (S k) (S n))) w1) as (new2 & Htrace2 & _).
      cbv zeta in Hnone, Hcount, Htrace2.
      split; [exact Hnone|].
      rewrite (events_since_app _ _ new2 Htrace2) in Hcount.
      rewrite (events_since_app w _ (new1 ++ new2)).
      * rewrite count_app, Hlaunch, Hcount. reflexivity.
      * rewrite Htrace2, Htrace1, <- app_assoc. reflexivity.
Qed.

(** The retry loop when it gives up.  An iteration of the capture loop
    is one attempt and starts by launching a browser of its own.  When
    no attempt produces a screenshot, [capture_tradingview_chart]
    returns [(None, False)] without raising after exactly
    [max_retries] launches, has called [driver.quit()] as many times
    as [setup_driver] returned a driver, and never twice on one
    driver. *)
Theorem capture_gives_up_after_max_retries (env : Env) (symbol interval theme : string)
    (max_retries : Z) (w : World) :
  0 <= max_retries ->
  every_attempt_fails env symbol max_retries (range max_retries) w ->
  let run := chart_main.capture_tradingview_chart env symbol interval theme max_retries w in
  let new := events_since w run.2 in
  run.1 = Ok (VNone, false)
  /\ Z.of_nat (count chart_main.is_launch new) = max_retries
  /\ count is_quit new = count is_setup_done new
  /\ NoDup (omap quit_driver new).
Proof.
  intros Hmax Hfail run new.
  change run with (capture_loop env symbol max_retries (range max_retries) w) in *.
  clear run. unfold range in *.
  destruct (capture_loop_all_fail env symbol max_retries (Z.to_nat max_retries) 0 w)
    as [Hnone Hcount]; [lia | exact Hfail |].
  destruct (capture_loop_run env symbol max_retries
              (map Z.of_nat (seq 0 (Z.to_nat max_retries))) w)
    as (evs & Htrace & _ & Hquit & _ & _ & Hnodup).
  cbv zeta in Hnone, Hcount, Htrace.
  subst new. rewrite (events_since_app _ _ evs Htrace) in Hcount |- *.
  split; [exact Hnone|]. split; [lia|]. split; [exact Hquit | exact Hnodup].
Qed.

Lemma capture_gives_up_after_max_retries_witness :
  (chart_main.capture_tradingview_chart env_chart_timeout "BTCUSD" "1h" "dark" 2 world0).1
  = Ok (VNone, false)
  /\ Z.of_nat (count chart_main.is_launch
       (events_since world0
          (chart_main.capture_tradingview_chart env_chart_timeout "BTCUSD" "1h" "dark" 2
             world0).2)) = 2
  /\ count is_quit
       (events_since world0
          (chart_main.capture_tradingview_chart env_chart_timeout "BTCUSD" "1h" "dark" 2
             world0).2)
     = count is_setup_done
         (events_since world0
            (chart_main.capture_tradingview_chart env_chart_timeout "BTCUSD" "1h" "dark" 2
               world0).2)
  /\ NoDup (omap quit_driver
       (events_since world0
          (chart_main.capture_tradingview_chart env_chart_timeout "BTCUSD" "1h" "dark" 2
             world0).2)).
Proof.
  apply (capture_gives_up_after_max_retries env_chart_timeout "BTCUSD" "1h" "dark" 2 world0).
  - lia.
  - vm_compute. split; [reflexivity|]. split; [reflexivity|]. exact I.
Defined.

(** C4.  The code breaks the claim where a browser starts and cannot
    be configured.  [webdriver.Chrome] succeeds and [set_window_size]
    raises inside [setup_driver] on both of two attempts: the handler
    of [setup_driver] re-raises without closing the browser, the
    variable [driver] of the loop is still [None], and the [finally]
    block skips [driver.quit()].  The run returns [(None, False)]
    after two attempts, each of which launched a browser, and
    [driver.quit()] was not called once: both browsers are left
    running. *)
Theorem capture_leaves_started_browsers_open :
  let run := chart_main.capture_tradingview_chart env_window_fails "BTCUSD" "1h" "dark" 2
               world0 in
  let new := events_since world0 run.2 in
  run.1 = Ok (VNone, false)
  /\ count chart_main.is_launch new = 2%nat
  /\ count is_browser_up new = 2%nat
  /\ count is_setup_done new = 0%nat
  /\ count is_quit new = 0%nat.
Proof. vm_compute. repeat split; reflexivity. Qed.

(** The scenario of the specification: the chart container times out
    on both attempts and [GET /chart] answers 500. *)
Lemma get_chart_timeout_answers_500 :
  status_code (http_response
    (chart_main.get_chart env_chart_timeout "BTCUSD" "15m" "dark" world0).1) = 500.
Proof. reflexivity. Qed.

(** C10.  [interval] and [theme] do not reach the capture: two calls
    that differ only in them are the same computation, for
    [capture_tradingview_chart] and for [GET /chart], and every page the
    browser is sent to is the chart URL built from the symbol alone. *)
Theorem capture_ignores_interval_and_theme (env : Env)
    (symbol interval1 theme1 interval2 theme2 : string) (max_retries : Z) (w : World) :
  chart_main.capture_tradingview_chart env symbol interval1 theme1 max_retries w
  = chart_main.capture_tradingview_chart env symbol interval2 theme2 max_retries w
  /\ chart_main.get_chart env symbol interval1 theme1 w
     = chart_main.get_chart env symbol interval2 theme2 w
  /\ Forall (eq ("https://www.tradingview.com/chart/?symbol=" +:+ quote ("FX:" +:+ symbol)))
       (omap loaded_url
          (events_since w
             (chart_main.capture_tradingview_chart env symbol interval1 theme1
                max_retries w).2)).
Proof.
  split; [reflexivity|]. split; [reflexivity|].
  destruct (capture_loop_run env symbol max_retries (range max_retries) w)
    as (evs & Htrace & _ & _ & Hurls & _).
  cbv zeta in Htrace.
  change (chart_main.capture_tradingview_chart env symbol interval1 theme1 max_retries w)
    with (capture_loop env symbol max_retries (range max_retries) w).
  rewrite (events_since_app _ _ evs Htrace). exact Hurls.
Qed.

(** * Further properties *)

(** ** The subscriber directory lookup *)

Lemma list_comp_user_ids (env : Env) (rows uids : list PyVal) (w : World) :
  Forall2 (fun row uid => subscript row "user_id" = Ok uid) rows uids ->
  list_comp (fun pref => user_id <- lift (subscript pref "user_id") ;;
                         ret (py_str env user_id)) rows w
  = (Ok (map (py_str env) uids), w).
Proof.
  intros Hrows. induction Hrows as [|row uid rows uids Hrow _ IH]; [reflexivity|].
  cbn [list_comp map]. unfold bind at 1. unfold bind at 1, lift at 1.
  rewrite Hrow. unfold ret at 1. unfold bind at 1. rewrite IH. reflexivity.
Qed.

Lemma list_comp_bad_row (env : Env) (rows : list PyVal) (w : World) :
  Exists (fun row => is_raise (subscript row "user_id") = true) rows ->
  exists e,
    list_comp (fun pref => user_id <- lift (subscript pref "user_id") ;;
                           ret (py_str env user_id)) rows w
    = (Raise e, w).
Proof.
  intros Hbad. induction Hbad as [row rows Hrow | row rows _ IH].
  - cbn [list_comp]. unfold bind at 1. unfold bind at 1, lift at 1.
    destruct (subscript row "user_id") as [uid|e]; [discriminate|]. by exists e.
  - destruct IH as [e IH].
    cbn [list_comp]. unfold bind at 1. unfold bind at 1, lift at 1.
    destruct (subscript row "user_id") as [uid|e'].
    + unfold ret at 1. unfold bind at 1. rewrite IH. by exists e.
    + by exists e'.
Qed.

(** X1.  When the signal has its three filter fields and the directory
    answers with rows that each carry a [user_id], [match_subscribers]
    makes that one query and returns [str(user_id)] of every row, in
    the order of the rows. *)
Theorem match_subscribers_lists_user_ids (env : Env) (self : trading_bot.TradingBot)
    (signal market instrument timeframe response : PyVal) (rows uids : list PyVal)
    (w : World) :
  subscript signal "market" = Ok market ->
  subscript signal "instrument" = Ok instrument ->
  subscript signal "timeframe" = Ok timeframe ->
  let query := SupabaseExecute "signal_preferences" "*"
                 [("market", market); ("instrument", instrument);
                  ("timeframe", timeframe)] in
  reply env (trace w) query = Ok response ->
  getattr response "data" = Ok (VList rows) ->
  Forall2 (fun row uid => subscript row "user_id" = Ok uid) rows uids ->
  let run := trading_bot.match_subscribers env self signal w in
  run.1 = Ok (map (py_str env) uids)
  /\ events_since w run.2 = [(query, Ok response)].
Proof.
  intros Hmarket Hinstrument Htimeframe query Hreply Hdata Hrows run.
  assert (Hrun : run = (Ok (map (py_str env) uids),
                        record query (Ok response)
                          (now w + latency env (trace w) query) w)).
  { subst run. unfold trading_bot.match_subscribers, try_except.
    unfold bind at 1. unfold lift at 1. rewrite Hmarket.
    unfold bind at 1. unfold lift at 1. rewrite Hinstrument.
    unfold bind at 1. unfold lift at 1. rewrite Htimeframe.
    unfold bind at 1. unfold external. fold query. rewrite Hreply.
    unfold bind at 1. unfold lift at 1. rewrite Hdata.
    unfold bind at 1. unfold lift at 1. cbn [py_iter].
    rewrite (list_comp_user_ids env rows uids _ Hrows). reflexivity. }
  rewrite Hrun. split; [reflexivity|]. by apply events_since_app.
Qed.

Lemma match_subscribers_lists_user_ids_witness :
  (trading_bot.match_subscribers env_one_blocked bot_ready signal_eurusd world0).1
  = Ok ["1"; "2"; "3"]
  /\ events_since world0
       (trading_bot.match_subscribers env_one_blocked bot_ready signal_eurusd world0).2
     = [(SupabaseExecute "signal_preferences" "*"
           [("market", VStr "forex"); ("instrument", VStr "EURUSD");
            ("timeframe", VStr "1h")],
         Ok (VObj [("data", VList [VDict [("user_id", VInt 1)];
                                   VDict [("user_id", VInt 2)];
                                   VDict [("user_id", VInt 3)]])]))].
Proof.
  apply (match_subscribers_lists_user_ids env_one_blocked bot_ready signal_eurusd
           (VStr "forex") (VStr "EURUSD") (VStr "1h")
           (VObj [("data", VList [VDict [("user_id", VInt 1)];
                                  VDict [("user_id", VInt 2)];
                                  VDict [("user_id", VInt 3)]])])
           [VDict [("user_id", VInt 1)]; VDict [("user_id", VInt 2)];
            VDict [("user_id", VInt 3)]]
           [VInt 1; VInt 2; VInt 3] world0);
    try reflexivity.
  repeat constructor.
Defined.

(** X2.  When the directory query raises, [match_subscribers] returns
    the empty list instead of raising: to its caller a directory that
    is down looks like a signal nobody subscribed to. *)
Theorem match_subscribers_directory_down (env : Env) (self : trading_bot.TradingBot)
    (signal market instrument timeframe : PyVal) (e : Exn) (w : World) :
  subscript signal "market" = Ok market ->
  subscript signal "instrument" = Ok instrument ->
  subscript signal "timeframe" = Ok timeframe ->
  let query := SupabaseExecute "signal_preferences" "*"
                 [("market", market); ("instrument", instrument);
                  ("timeframe", timeframe)] in
  reply env (trace w) query = Raise e ->
  let run := trading_bot.match_subscribers env self signal w in
  run.1 = Ok [] /\ events_since w run.2 = [(query, Raise e)].
Proof.
  intros Hmarket Hinstrument Htimeframe query Hreply run.
  assert (Hrun : run = (Ok [], record query (Raise e)
                                 (now w + latency env (trace w) query) w)).
  { subst run. unfold trading_bot.match_subscribers, try_except.
    unfold bind at 1. unfold lift at 1. rewrite Hmarket.
    unfold bind at 1. unfold lift at 1. rewrite Hinstrument.
    unfold bind at 1. unfold lift at 1. rewrite Htimeframe.
    unfold bind at 1. unfold external. fold query. rewrite Hreply. reflexivity. }
  rewrite Hrun. split; [reflexivity|]. by apply events_since_app.
Qed.

Lemma match_subscribers_directory_down_witness :
  (trading_bot.match_subscribers env_directory_down bot_ready signal_eurusd world0).1 = Ok []
  /\ events_since world0
       (trading_bot.match_subscribers env_directory_down bot_ready signal_eurusd world0).2
     = [(SupabaseExecute "signal_preferences" "*"
           [("market", VStr "forex"); ("instrument", VStr "EURUSD");
            ("timeframe", VStr "1h")],
         Raise (SdkError "postgrest.APIError" "connection refused"))].
Proof.
  apply (match_subscribers_directory_down env_directory_down bot_ready signal_eurusd
           (VStr "forex") (VStr "EURUSD") (VStr "1h")
           (SdkError "postgrest.APIError" "connection refused") world0);
    reflexivity.
Defined.

(** X3.  A signal without one of the fields [market], [instrument],
    [timeframe] matches nobody: [match_subscribers] returns the empty
    list without querying the directory at all. *)
Theorem match_subscribers_incomplete_signal (env : Env) (self : trading_bot.TradingBot)
    (signal : PyVal) (w : World) :
  is_raise (subscript signal "market") = true
  \/ is_raise (subscript signal "instrument") = true
  \/ is_raise (subscript signal "timeframe") = true ->
  trading_bot.match_subscribers env self signal w = (Ok [], w).
Proof.
  intros Hmissing.
  unfold trading_bot.match_subscribers, try_except, bind, lift.
  destruct (subscript signal "market"); [|reflexivity].
  destruct (subscript signal "instrument"); [|reflexivity].
  destruct (subscript signal "timeframe"); [|reflexivity].
  destruct Hmissing as [H | [H | H]]; discriminate.
Qed.

Lemma match_subscribers_incomplete_signal_witness :
  trading_bot.match_subscribers (env_up "Bullish" []) bot_ready
    (VDict [("market", VStr "forex"); ("symbol", VStr "EURUSD")]) world0
  = (Ok [], world0).
Proof.
  apply (match_subscribers_incomplete_signal (env_up "Bullish" []) bot_ready
           (VDict [("market", VStr "forex"); ("symbol", VStr "EURUSD")]) world0).
  right. left. reflexivity.
Defined.

(** X4.  One row without [user_id] in the directory's answer empties
    the whole result: the list comprehension raises on that row and the
    handler returns [[]], dropping the rows that were well formed. *)
Theorem match_subscribers_one_bad_row (env : Env) (self : trading_bot.TradingBot)
    (signal market instrument timeframe response : PyVal) (rows : list PyVal)
    (w : World) :
  subscript signal "market" = Ok market ->
  subscript signal "instrument" = Ok instrument ->
  subscript signal "timeframe" = Ok timeframe ->
  let query := SupabaseExecute "signal_preferences" "*"
                 [("market", market); ("instrument", instrument);
                  ("timeframe", timeframe)] in
  reply env (trace w) query = Ok response ->
  getattr response "data" = Ok (VList rows) ->
  Exists (fun row => is_raise (subscript row "user_id") = true) rows ->
  (trading_bot.match_subscribers env self signal w).1 = Ok [].
Proof.
  intros Hmarket Hinstrument Htimeframe query Hreply Hdata Hbad.
  unfold trading_bot.match_subscribers, try_except.
  unfold bind at 1. unfold lift at 1. rewrite Hmarket.
  unfold bind at 1. unfold lift at 1. rewrite Hinstrument.
  unfold bind at 1. unfold lift at 1. rewrite Htimeframe.
  unfold bind at 1. unfold external. fold query. rewrite Hreply.
  unfold bind at 1. unfold lift at 1. rewrite Hdata.
  unfold bind at 1. unfold lift at 1. cbn [py_iter].
  destruct (list_comp_bad_row env rows
              (record query (Ok response) (now w + latency env (trace w) query) w) Hbad)
    as [e ->].
  reflexivity.
Qed.

Lemma match_subscribers_one_bad_row_witness :
  (trading_bot.match_subscribers env_bad_row bot_ready signal_eurusd world0).1 = Ok [].
Proof.
  apply (match_subscribers_one_bad_row env_bad_row bot_ready signal_eurusd
           (VStr "forex") (VStr "EURUSD") (VStr "1h")
           (VObj [("data", VList [VDict [("user_id", VInt 1)];
                                  VDict [("chat", VInt 2)]])])
           [VDict [("user_id", VInt 1)]; VDict [("chat", VInt 2)]] world0);
    try reflexivity.
  apply Exists_cons_tl, Exists_cons_hd. reflexivity.
Defined.

(** ** The notification pipeline *)

Lemma no_send_no_content (new : list Event) :
  forallb (fun ev => negb (is_send ev)) new = true -> omap sent_content new = [].
Proof.
  induction new as [|[c r] new IH]; [reflexivity|].
  cbn [forallb]. intros [Hc Hrest]%andb_prop.
  cbn [omap list_omap]. rewrite (IH Hrest).
  destruct c; try reflexivity. discriminate.
Qed.

Lemma silent_no_send (new : list Event) :
  omap sent_chat new = [] -> forallb (fun ev => negb (is_send ev)) new = true.
Proof.
  induction new as [|[c r] new IH]; [reflexivity|].
  cbn [omap list_omap forallb].
  destruct c; cbn [sent_chat is_send fst negb andb]; try exact IH. discriminate.
Qed.

(** When nothing stands in the way, the message and the keyboard
    depend on the signal and the sentiment only, not on the chat or
    the moment. *)
Lemma send_signal_message_content (env : Env) (self : trading_bot.TradingBot)
    (signal sentiment : PyVal) :
  sendable self signal = true ->
  exists (message : string) (keyboard : InlineKeyboardMarkup),
    forall (chat_id : PyVal) (w : World),
      let c := SendMessage chat_id message (Some "Markdown") (Some keyboard) in
      trading_bot.send_signal_message env self chat_id signal sentiment w
      = (Ok VNone,
         record c (reply env (trace w) c) (now w + latency env (trace w) c) w).
Proof.
  unfold sendable. intros Hsendable.
  destruct (trading_bot._bot self) as [b|] eqn:Hbot; [|discriminate].
  destruct (subscript signal "symbol") as [symbol|] eqn:Hsymbol; [|discriminate].
  destruct (subscript signal "action") as [action|] eqn:Haction; [|discriminate].
  destruct (subscript signal "price") as [price|] eqn:Hprice; [|discriminate].
  destruct (subscript signal "timeframe") as [timeframe|] eqn:Htimeframe; [|discriminate].
  eexists. eexists. intros chat_id w.
  unfold trading_bot.send_signal_message, trading_bot.send_message.
  unfold try_except, bind, lift, external, ret.
  rewrite Hsymbol, Htimeframe, Haction, Hprice, Hbot.
  cbv beta iota zeta.
  match goal with
  | |- context [reply env (trace w) ?c] => destruct (reply env (trace w) c) eqn:Hreply
  end; rewrite <- Hreply; reflexivity.
Qed.

(** Otherwise no call is made at all. *)
Lemma send_signal_message_blocked (env : Env) (self : trading_bot.TradingBot)
    (chat_id signal sentiment : PyVal) (w : World) :
  sendable self signal = false ->
  trading_bot.send_signal_message env self chat_id signal sentiment w = (Ok VNone, w).
Proof.
  unfold sendable. intros Hblocked.
  unfold trading_bot.send_signal_message, trading_bot.send_message.
  unfold try_except, bind, lift, raise, ret.
  destruct (subscript signal "symbol"); [|reflexivity].
  destruct (subscript signal "action"); [|reflexivity].
  destruct (subscript signal "price"); [|reflexivity].
  destruct (subscript signal "timeframe"); [|reflexivity].
  destruct (trading_bot._bot self); [discriminate | reflexivity].
Qed.

(** X5.  [send_signal_message] never raises and leaves the cache
    alone; the only call it can make is one [send_message] to the chat
    it was given, in Markdown and with a keyboard.  It makes none when
    the bot is not initialised or the signal lacks a field. *)
Theorem send_signal_message_one_chat (env : Env) (self : trading_bot.TradingBot)
    (chat_id signal sentiment : PyVal) (w : World) :
  let run := trading_bot.send_signal_message env self chat_id signal sentiment w in
  run.1 = Ok VNone
  /\ store run.2 = store w
  /\ (if sendable self signal
      then exists message keyboard r,
             events_since w run.2
             = [(SendMessage chat_id message (Some "Markdown") (Some keyboard), r)]
      else events_since w run.2 = []).
Proof.
  intros run. subst run.
  destruct (sendable self signal) eqn:Hsendable.
  - destruct (send_signal_message_content env self signal sentiment Hsendable)
      as (message & keyboard & Hrun).
    rewrite (Hrun chat_id w). cbn [fst snd].
    split; [reflexivity|]. split; [reflexivity|].
    eexists message, keyboard, _. by apply events_since_app.
  - rewrite (send_signal_message_blocked env self chat_id signal sentiment w Hsendable).
    cbn [fst snd]. split; [reflexivity|]. split; [reflexivity|].
    apply events_since_app. by rewrite app_nil_r.
Qed.

Lemma send_all_cons (env : Env) (self : trading_bot.TradingBot)
    (signal sentiment : PyVal) (chat_id : string) (rest : list string) (w : World) :
  send_all env self signal sentiment (chat_id :: rest) w
  = match trading_bot.send_signal_message env self (VStr chat_id) signal sentiment w with
    | (Ok _, w1) => send_all env self signal sentiment rest w1
    | (Raise e, w1) => (Raise e, w1)
    end.
Proof.
  unfold send_all. cbn [for_in]. unfold bind.
  destruct (trading_bot.send_signal_message env self (VStr chat_id) signal sentiment w)
    as [[v|e] w1]; reflexivity.
Qed.

Lemma send_all_blocked (env : Env) (self : trading_bot.TradingBot)
    (signal sentiment : PyVal) (chat_ids : list string) (w : World) :
  sendable self signal = false ->
  send_all env self signal sentiment chat_ids w = (Ok tt, w).
Proof.
  intros Hblocked. induction chat_ids as [|chat_id rest IH]; [reflexivity|].
  rewrite send_all_cons.
  rewrite (send_signal_message_blocked env self _ signal sentiment w Hblocked).
  exact IH.
Qed.

Lemma send_all_content (env : Env) (self : trading_bot.TradingBot)
    (signal sentiment : PyVal) (message : string) (keyboard : InlineKeyboardMarkup)
    (chat_ids : list string) (w : World) :
  (forall (chat_id : PyVal) (w : World),
      let c := SendMessage chat_id message (Some "Markdown") (Some keyboard) in
      trading_bot.send_signal_message env self chat_id signal sentiment w
      = (Ok VNone,
         record c (reply env (trace w) c) (now w + latency env (trace w) c) w)) ->
  let run := send_all env self signal sentiment chat_ids w in
  run.1 = Ok tt
  /\ exists new,
       trace run.2 = trace w ++ new
       /\ forallb is_send new = true
       /\ omap sent_chat new = map VStr chat_ids
       /\ omap sent_content new
          = replicate (List.length chat_ids) (message, Some "Markdown", Some keyboard).
Proof.
  intros Hone. revert w. induction chat_ids as [|chat_id rest IH]; intros w.
  - split; [reflexivity|]. exists []. cbn [send_all for_in ret snd].
    split; [by rewrite app_nil_r|]. repeat split.
  - cbv zeta. rewrite send_all_cons, (Hone (VStr chat_id) w).
    set (w1 := record _ _ _ w).
    destruct (IH w1) as (Hok & new & Htrace & Hsends & Hchats & Hcontents).
    split; [exact Hok|].
    eexists (_ :: new). split; [|split; [|split]].
    + rewrite Htrace. subst w1. cbn [record trace]. rewrite <- app_assoc. reflexivity.
    + cbn [forallb is_send fst andb]. exact Hsends.
    + cbn [omap list_omap sent_chat fst map]. by rewrite Hchats.
    + cbn [omap list_omap sent_content fst List.length replicate]. by rewrite Hcontents.
Qed.

Lemma wp_redis_get (env : Env) (key : string) (w : World)
    (Q : Result PyVal -> World -> Prop) :
  (forall r, Q r (record (RedisGet key) r
                    (now w + latency env (trace w) (RedisGet key)) w)) ->
  wp (redis_get env key) w Q.
Proof.
  intros HQ. unfold wp.
  destruct (redis_get_run env key w) as (r & -> & _). apply HQ.
Qed.

Lemma wp_redis_setex (env : Env) (key : string) (time : Z) (value : PyVal) (w : World)
    (Q : Result PyVal -> World -> Prop) :
  (forall r w', trace w' = trace w ++ [(RedisSetex key time value, r)] -> Q r w') ->
  wp (redis_setex env key time value) w Q.
Proof.
  intros HQ. unfold wp.
  destruct (redis_setex_run env key time value w)
    as [(e & w' & -> & Htrace & _) | (b & _ & ->)]; apply HQ; [exact Htrace | reflexivity].
Qed.

Ltac wp_fetch :=
  repeat first
    [ wp_step
    | apply wp_redis_get; intros ?
    | apply wp_redis_setex; intros ? ? ?
    | wp_case ].

(** The calls of one [analyze_sentiment]: cache commands and at most
    one completion request. *)
Lemma analyze_sentiment_calls (env : Env) (self : trading_bot.TradingBot)
    (symbol : PyVal) (w : World) :
  let run := trading_bot.analyze_sentiment env self symbol w in
  exists new,
    trace run.2 = trace w ++ new
    /\ forallb is_fetch new = true
    /\ (count is_completion new <= 1)%nat.
Proof.
  cbv zeta.
  change (wp (trading_bot.analyze_sentiment env self symbol) w
            (fun _ w' => exists new,
               trace w' = trace w ++ new
               /\ forallb is_fetch new = true
               /\ (count is_completion new <= 1)%nat)).
  unfold trading_bot.analyze_sentiment. cbv zeta.
  wp_fetch.
  all: eexists;
    (split;
     [ first [ match goal with H : trace _ = _ ++ _ |- _ => rewrite H end
             | idtac ];
       cbn [record trace]; rewrite <- ?app_assoc; reflexivity
     | split; [reflexivity | cbn; lia] ]).
Qed.

(** The calls of one [match_subscribers]: at most one, to the
    directory. *)
Lemma match_subscribers_calls (env : Env) (self : trading_bot.TradingBot)
    (signal : PyVal) (w : World) :
  let run := trading_bot.match_subscribers env self signal w in
  exists new,
    trace run.2 = trace w ++ new
    /\ forallb is_directory new = true
    /\ (List.length new <= 1)%nat.
Proof.
  cbv zeta.
  change (wp (trading_bot.match_subscribers env self signal) w
            (fun _ w' => exists new,
               trace w' = trace w ++ new
               /\ forallb is_directory new = true
               /\ (List.length new <= 1)%nat)).
  unfold trading_bot.match_subscribers.
  wp_run.
  all: try (apply wp_list_comp_pure;
            [ intros pref w'; unfold bind, lift, ret;
              destruct (subscript pref "user_id"); reflexivity
            | intros [ids|e]; wp_run ]).
  all: first
    [ exists []; split; [by rewrite app_nil_r | split; [reflexivity | cbn; lia]]
    | eexists [_]; split; [reflexivity | split; [reflexivity | cbn; lia]] ].
Qed.

Lemma process_signal_unfold (env : Env) (self : trading_bot.TradingBot)
    (signal : PyVal) (w : World) :
  trading_bot.process_signal env self signal w
  = match trading_bot.match_subscribers env self signal w with
    | (Raise e, w1) => (Raise e, w1)
    | (Ok chat_ids, w1) =>
        match subscript signal "symbol" with
        | Raise e => (Raise e, w1)
        | Ok symbol =>
            match trading_bot.analyze_sentiment env self symbol w1 with
            | (Raise e, w2) => (Raise e, w2)
            | (Ok sentiment, w2) =>
                match send_all env self signal sentiment chat_ids w2 with
                | (Raise e, w3) => (Raise e, w3)
                | (Ok _, w3) =>
                    (Ok (VDict [("status", VStr "success");
                                ("sent_to", VInt (Z.of_nat (List.length chat_ids)));
                                ("signal", signal);
                                ("sentiment", sentiment)]), w3)
                end
            end
        end
    end.
Proof.
  unfold trading_bot.process_signal, try_except. unfold bind at 1.
  destruct (trading_bot.match_subscribers env self signal w) as [[chat_ids|e] w1];
    [|reflexivity].
  unfold bind at 1. unfold lift at 1.
  destruct (subscript signal "symbol") as [symbol|e]; [|reflexivity].
  unfold bind at 1.
  destruct (trading_bot.analyze_sentiment env self symbol w1) as [[sentiment|e] w2];
    [|reflexivity].
  unfold bind at 1. fold (send_all env self signal sentiment chat_ids).
  destruct (send_all env self signal sentiment chat_ids w2) as [[[]|e] w3]; reflexivity.
Qed.

(** How [process_signal] is made of its three steps. *)
Lemma process_signal_steps (env : Env) (self : trading_bot.TradingBot)
    (signal : PyVal) (w : World) :
  let lookup := trading_bot.match_subscribers env self signal w in
  exists chat_ids : list string,
    lookup.1 = Ok chat_ids
    /\ match subscript signal "symbol" with
       | Raise e => trading_bot.process_signal env self signal w = (Raise e, lookup.2)
       | Ok symbol =>
           let fetch := trading_bot.analyze_sentiment env self symbol lookup.2 in
           exists sentiment : PyVal,
             fetch.1 = Ok sentiment
             /\ trading_bot.process_signal env self signal w
                = (Ok (VDict [("status", VStr "success");
                              ("sent_to", VInt (Z.of_nat (List.length chat_ids)));
                              ("signal", signal);
                              ("sentiment", sentiment)]),
                   (send_all env self signal sentiment chat_ids fetch.2).2)
       end.
Proof.
  cbv zeta. rewrite process_signal_unfold.
  destruct (match_subscribers_run env self signal w) as ((chat_ids & Hids) & _).
  exists chat_ids. split; [exact Hids|].
  destruct (trading_bot.match_subscribers env self signal w) as [r1 w1].
  cbn [fst snd] in Hids |- *. subst r1.
  destruct (subscript signal "symbol") as [symbol|e]; [|reflexivity].
  destruct (analyze_sentiment_cases env self symbol w1)
    as (sentiment & _ & Hsentiment & _).
  exists sentiment. split; [exact Hsentiment|].
  destruct (trading_bot.analyze_sentiment env self symbol w1) as [r2 w2].
  cbn [fst snd] in Hsentiment |- *. subst r2.
  pose proof (send_all_total env self signal sentiment chat_ids w2) as Hloop.
  destruct (send_all env self signal sentiment chat_ids w2) as [r3 w3].
  cbn [fst snd] in Hloop |- *. subst r3. reflexivity.
Qed.

Lemma send_all_calls (env : Env) (self : trading_bot.TradingBot)
    (signal sentiment : PyVal) (chat_ids : list string) (w : World) :
  exists new,
    trace (send_all env self signal sentiment chat_ids w).2 = trace w ++ new
    /\ forallb is_send new = true.
Proof.
  destruct (sendable self signal) eqn:Hsendable.
  - destruct (send_signal_message_content env self signal sentiment Hsendable)
      as (message & keyboard & Hone).
    destruct (send_all_content env self signal sentiment message keyboard chat_ids w Hone)
      as (_ & new & Htrace & Hsends & _).
    by exists new.
  - rewrite (send_all_blocked env self signal sentiment chat_ids w Hsendable).
    exists []. split; [by rewrite app_nil_r | reflexivity].
Qed.

(** X6.  [process_signal] works in three phases, whatever the signal
    and the outside: at most one directory query first, then the cache
    commands with at most one completion request, then the sends.  The
    sentiment is fetched once per signal, not once per subscriber, and
    no send happens before the lookup and the fetch are over. *)
Theorem process_signal_phases (env : Env) (self : trading_bot.TradingBot)
    (signal : PyVal) (w : World) :
  let run := trading_bot.process_signal env self signal w in
  exists lookup fetch sends : list Event,
    events_since w run.2 = lookup ++ fetch ++ sends
    /\ forallb is_directory lookup = true /\ (List.length lookup <= 1)%nat
    /\ forallb is_fetch fetch = true /\ (count is_completion fetch <= 1)%nat
    /\ forallb is_send sends = true.
Proof.
  cbv zeta.
  destruct (process_signal_steps env self signal w) as (chat_ids & _ & Hsteps).
  destruct (match_subscribers_calls env self signal w) as (lookup & Htrace1 & Hdir & Hone).
  cbv zeta in Hsteps, Htrace1.
  set (w1 := (trading_bot.match_subscribers env self signal w).2) in *.
  destruct (subscript signal "symbol") as [symbol|e].
  - destruct Hsteps as (sentiment & _ & ->). cbn [snd].
    destruct (analyze_sentiment_calls env self symbol w1) as (fetch & Htrace2 & Hfetch & Hmost).
    cbv zeta in Htrace2.
    set (w2 := (trading_bot.analyze_sentiment env self symbol w1).2) in *.
    destruct (send_all_calls env self signal sentiment chat_ids w2)
      as (sends & Htrace3 & Hsends).
    exists lookup, fetch, sends.
    split; [|by auto].
    apply events_since_app. rewrite Htrace3, Htrace2, Htrace1, <- !app_assoc. reflexivity.
  - rewrite Hsteps. cbn [snd]. exists lookup, [], [].
    split; [|by repeat split; auto].
    apply events_since_app. rewrite Htrace1, !app_nil_r. reflexivity.
Qed.

(** X7.  A signal without [symbol] makes [process_signal] raise the
    [KeyError] of that lookup to its caller.  The directory query has
    been made by then; no cache command, completion request or send
    follows. *)
Theorem process_signal_without_symbol (env : Env) (self : trading_bot.TradingBot)
    (signal : PyVal) (e : Exn) (w : World) :
  subscript signal "symbol" = Raise e ->
  let run := trading_bot.process_signal env self signal w in
  run.1 = Raise e
  /\ run.2 = (trading_bot.match_subscribers env self signal w).2
  /\ forallb is_directory (events_since w run.2) = true.
Proof.
  intros Hsymbol. cbv zeta.
  destruct (process_signal_steps env self signal w) as (chat_ids & _ & Hsteps).
  rewrite Hsymbol in Hsteps. rewrite Hsteps. cbn [fst snd].
  split; [reflexivity|]. split; [reflexivity|].
  destruct (match_subscribers_calls env self signal w) as (lookup & Htrace & Hdir & _).
  by rewrite (events_since_app _ _ lookup Htrace).
Qed.

Lemma process_signal_without_symbol_witness :
  (trading_bot.process_signal (env_up "Bullish" []) bot_ready signal_no_symbol world0).1
  = Raise (KeyError "symbol")
  /\ (trading_bot.process_signal (env_up "Bullish" []) bot_ready signal_no_symbol world0).2
     = (trading_bot.match_subscribers (env_up "Bullish" []) bot_ready signal_no_symbol
          world0).2
  /\ forallb is_directory
       (events_since world0
          (trading_bot.process_signal (env_up "Bullish" []) bot_ready signal_no_symbol
             world0).2) = true.
Proof.
  apply (process_signal_without_symbol (env_up "Bullish" []) bot_ready signal_no_symbol
           (KeyError "symbol") world0).
  reflexivity.
Defined.

(** X8.  Every subscriber of one signal gets the same message: the
    same text, Markdown, and the same keyboard. *)
Theorem process_signal_same_message (env : Env) (self : trading_bot.TradingBot)
    (signal : PyVal) (w : World) :
  sendable self signal = true ->
  let run := trading_bot.process_signal env self signal w in
  exists (chat_ids : list string) (message : string) (keyboard : InlineKeyboardMarkup),
    (trading_bot.match_subscribers env self signal w).1 = Ok chat_ids
    /\ omap sent_content (events_since w run.2)
       = replicate (List.length chat_ids) (message, Some "Markdown", Some keyboard).
Proof.
  intros Hsendable. cbv zeta.
  destruct (process_signal_steps env self signal w) as (chat_ids & Hids & Hsteps).
  destruct (match_subscribers_run env self signal w) as (_ & (new1 & Htrace1 & Hsilent1)).
  cbv zeta in Hsteps.
  set (w1 := (trading_bot.match_subscribers env self signal w).2) in *.
  destruct (subscript signal "symbol") as [symbol|e] eqn:Hsymbol.
  2: { unfold sendable in Hsendable. rewrite Hsymbol in Hsendable.
       rewrite !andb_false_r in Hsendable. cbn in Hsendable.
       destruct (trading_bot._bot self); discriminate. }
  destruct Hsteps as (sentiment & _ & ->). cbn [snd].
  destruct (analyze_sentiment_cases env self symbol w1)
    as (_ & new2 & _ & Htrace2 & Hsilent2 & _).
  set (w2 := (trading_bot.analyze_sentiment env self symbol w1).2) in *.
  destruct (send_signal_message_content env self signal sentiment Hsendable)
    as (message & keyboard & Hone).
  destruct (send_all_content env self signal sentiment message keyboard chat_ids w2 Hone)
    as (_ & new3 & Htrace3 & _ & _ & Hcontents).
  exists chat_ids, message, keyboard. split; [exact Hids|].
  rewrite (events_since_app w _ (new1 ++ new2 ++ new3)).
  - rewrite !omap_app, Hcontents.
    rewrite (no_send_no_content new1 (silent_no_send new1 Hsilent1)).
    rewrite (no_send_no_content new2 (silent_no_send new2 Hsilent2)).
    reflexivity.
  - rewrite Htrace3, Htrace2, Htrace1, <- !app_assoc. reflexivity.
Qed.

Lemma process_signal_same_message_witness :
  exists (chat_ids : list string) (message : string) (keyboard : InlineKeyboardMarkup),
    (trading_bot.match_subscribers env_one_blocked bot_ready signal_eurusd world0).1
    = Ok chat_ids
    /\ omap sent_content
         (events_since world0
            (trading_bot.process_signal env_one_blocked bot_ready signal_eurusd world0).2)
       = replicate (List.length chat_ids) (message, Some "Markdown", Some keyboard).
Proof.
  apply (process_signal_same_message env_one_blocked bot_ready signal_eurusd world0).
  reflexivity.
Defined.

(** X9.  [sent_to] counts the subscribers found, not the messages
    sent.  With a bot that was never initialised ([_bot] is [None], as
    [__init__] leaves it) or a signal without [action], [price] or
    [timeframe], [process_signal] makes no [send_message] call at all
    and still returns ["success"] with [sent_to] equal to the number of
    subscribers. *)
Theorem process_signal_counts_unsent (env : Env) (self : trading_bot.TradingBot)
    (signal symbol : PyVal) (w : World) :
  subscript signal "symbol" = Ok symbol ->
  sendable self signal = false ->
  let run := trading_bot.process_signal env self signal w in
  exists (chat_ids : list string) (sentiment : PyVal),
    (trading_bot.match_subscribers env self signal w).1 = Ok chat_ids
    /\ run.1 = Ok (VDict [("status", VStr "success");
                          ("sent_to", VInt (Z.of_nat (List.length chat_ids)));
                          ("signal", signal);
                          ("sentiment", sentiment)])
    /\ List.filter is_send (events_since w run.2) = [].
Proof.
  intros Hsymbol Hblocked. cbv zeta.
  destruct (process_signal_steps env self signal w) as (chat_ids & Hids & Hsteps).
  destruct (match_subscribers_calls env self signal w) as (new1 & Htrace1 & Hdir & _).
  cbv zeta in Hsteps, Htrace1. rewrite Hsymbol in Hsteps.
  set (w1 := (trading_bot.match_subscribers env self signal w).2) in *.
  destruct Hsteps as (sentiment & _ & ->). cbn [fst snd].
  destruct (analyze_sentiment_calls env self symbol w1) as (new2 & Htrace2 & Hfetch & _).
  cbv zeta in Htrace2.
  set (w2 := (trading_bot.analyze_sentiment env self symbol w1).2) in *.
  rewrite (send_all_blocked env self signal sentiment chat_ids w2 Hblocked). cbn [snd].
  exists chat_ids, sentiment. split; [exact Hids|]. split; [reflexivity|].
  rewrite (events_since_app w w2 (new1 ++ new2))
    by (rewrite Htrace2, Htrace1, <- app_assoc; reflexivity).
  rewrite List.filter_app.
  assert (Hnone : forall p (l : list Event),
    forallb p l = true -> (forall ev, p ev = true -> is_send ev = false) ->
    List.filter is_send l = []).
  { intros p l Hall Hp. induction l as [|ev l IH]; [reflexivity|].
    cbn [forallb] in Hall. apply andb_prop in Hall as [Hev Hall].
    cbn [List.filter]. rewrite (Hp ev Hev). by apply IH. }
  rewrite (Hnone is_directory new1 Hdir), (Hnone is_fetch new2 Hfetch); [reflexivity| |].
  - intros [[] ?]; cbn; congruence.
  - intros [[] ?]; cbn; congruence.
Qed.

Lemma process_signal_counts_unsent_witness :
  exists (chat_ids : list string) (sentiment : PyVal),
    (trading_bot.match_subscribers env_one_blocked
       (trading_bot.init env_one_blocked) signal_eurusd world0).1 = Ok chat_ids
    /\ (trading_bot.process_signal env_one_blocked
          (trading_bot.init env_one_blocked) signal_eurusd world0).1
       = Ok (VDict [("status", VStr "success");
                    ("sent_to", VInt (Z.of_nat (List.length chat_ids)));
                    ("signal", signal_eurusd);
                    ("sentiment", sentiment)])
    /\ List.filter is_send
         (events_since world0
            (trading_bot.process_signal env_one_blocked
               (trading_bot.init env_one_blocked) signal_eurusd world0).2) = [].
Proof.
  apply (process_signal_counts_unsent env_one_blocked (trading_bot.init env_one_blocked)
           signal_eurusd (VStr "EURUSD") world0); reflexivity.
Defined.

(** ** The sentiment fetcher *)

(** X10.  A fetch for one symbol leaves the cache entries of every
    other key as they were. *)
Theorem analyze_sentiment_other_keys (env : Env) (self : trading_bot.TradingBot)
    (symbol : PyVal) (other : string) (w : World) :
  other <> "sentiment:" +:+ py_str env symbol ->
  store (trading_bot.analyze_sentiment env self symbol w).2 !! other = store w !! other.
Proof.
  intros Hother.
  destruct (analyze_sentiment_cases env self symbol w) as (v & new & _ & _ & _ & Hcases).
  cbv zeta in Hcases.
  destruct Hcases as [(_ & -> & _) | [(b & expiry & _ & _ & _ & _ & -> & _)
                                     | (cached & response & b & _ & _ & _ & _ & ->)]];
    [reflexivity | reflexivity |].
  by apply lookup_insert_ne.
Qed.

Lemma analyze_sentiment_other_keys_witness :
  store (trading_bot.analyze_sentiment (env_up "Bullish" []) bot_ready (VStr "EURUSD")
           world_gbp_cached).2 !! "sentiment:GBPUSD"
  = store world_gbp_cached !! "sentiment:GBPUSD".
Proof.
  apply (analyze_sentiment_other_keys (env_up "Bullish" []) bot_ready (VStr "EURUSD")
           "sentiment:GBPUSD" world_gbp_cached).
  discriminate.
Defined.

(** X11.  Failures are not cached: when a call made by
    [analyze_sentiment] raised, the cache is left exactly as it was, so
    the fallback string is never stored and the next call tries
    again. *)
Theorem analyze_sentiment_failure_not_cached (env : Env) (self : trading_bot.TradingBot)
    (symbol : PyVal) (w : World) :
  let run := trading_bot.analyze_sentiment env self symbol w in
  Exists (fun ev => is_raise ev.2 = true) (events_since w run.2) ->
  run.1 = Ok (VStr "Sentiment analysis unavailable") /\ store run.2 = store w.
Proof.
  cbv zeta.
  destruct (analyze_sentiment_cases env self symbol w)
    as (v & new & Hrun & Htrace & _ & Hcases).
  cbv zeta in Hrun, Htrace, Hcases.
  rewrite (events_since_app _ _ new Htrace). intros Hraised.
  destruct Hcases as [(-> & Hstore & _) | [(b & expiry & -> & _)
                                          | (cached & response & b & -> & _)]].
  - by split.
  - exfalso. apply Exists_cons in Hraised as [H | H]; [discriminate|].
    by apply Exists_nil in H.
  - exfalso. repeat (apply Exists_cons in Hraised as [Hraised | Hraised]; [discriminate|]).
    by apply Exists_nil in Hraised.
Qed.

Lemma analyze_sentiment_failure_not_cached_witness :
  (trading_bot.analyze_sentiment env_api_down bot_ready (VStr "EURUSD") world0).1
  = Ok (VStr "Sentiment analysis unavailable")
  /\ store (trading_bot.analyze_sentiment env_api_down bot_ready (VStr "EURUSD")
              world0).2
     = store world0.
Proof.
  apply (analyze_sentiment_failure_not_cached env_api_down bot_ready (VStr "EURUSD") world0).
  vm_compute. apply Exists_cons_tl, Exists_cons_hd. reflexivity.
Defined.

(** X12.  What [analyze_sentiment] writes to the cache is what it
    returns: a cache write that went through was made under
    [sentiment:<symbol>], with a lifetime of 300 seconds, and carried
    the very value the call returns. *)
Theorem analyze_sentiment_caches_what_it_returns (env : Env)
    (self : trading_bot.TradingBot) (symbol value : PyVal) (key : string) (time : Z)
    (r : PyVal) (w : World) :
  let run := trading_bot.analyze_sentiment env self symbol w in
  In (RedisSetex key time value, Ok r) (events_since w run.2) ->
  key = "sentiment:" +:+ py_str env symbol
  /\ time = 300
  /\ run.1 = Ok value
  /\ exists b, redis_encode env value = Ok b
               /\ store run.2 !! key = Some (b, now run.2 + 300).
Proof.
  cbv zeta.
  destruct (analyze_sentiment_cases env self symbol w)
    as (v & new & Hrun & Htrace & _ & Hcases).
  cbv zeta in Hrun, Htrace, Hcases.
  rewrite (events_since_app _ _ new Htrace). intros Hwritten.
  destruct Hcases as [(_ & _ & Hnone) | [(b & expiry & -> & _)
                                        | (cached & response & b & -> & _ & _ & Hencode & Hstore)]].
  - exfalso. rewrite forallb_forall in Hnone. specialize (Hnone _ Hwritten). discriminate.
  - exfalso. destruct Hwritten as [Heq | []]. discriminate.
  - destruct Hwritten as [Heq | [Heq | [Heq | []]]]; try discriminate.
    injection Heq as <- <- <- _.
    split; [reflexivity|]. split; [reflexivity|]. split; [exact Hrun|].
    exists b. split; [exact Hencode|]. rewrite Hstore. apply lookup_insert_eq.
Qed.

Lemma analyze_sentiment_caches_what_it_returns_witness :
  "sentiment:EURUSD" = "sentiment:" +:+ py_str (env_up "Bullish" []) (VStr "EURUSD")
  /\ 300 = 300
  /\ (trading_bot.analyze_sentiment (env_up "Bullish" []) bot_ready (VStr "EURUSD")
        world0).1 = Ok (VStr "Bullish")
  /\ exists b, redis_encode (env_up "Bullish" []) (VStr "Bullish") = Ok b
               /\ store (trading_bot.analyze_sentiment (env_up "Bullish" []) bot_ready
                           (VStr "EURUSD") world0).2 !! "sentiment:EURUSD"
                  = Some (b, now (trading_bot.analyze_sentiment (env_up "Bullish" [])
                                    bot_ready (VStr "EURUSD") world0).2 + 300).
Proof.
  apply (analyze_sentiment_caches_what_it_returns (env_up "Bullish" []) bot_ready
           (VStr "EURUSD") (VStr "Bullish") "sentiment:EURUSD" 300 (VBool true) world0).
  vm_compute. right. right. left. reflexivity.
Defined.

(** ** The callback handler *)

(** X13.  Whatever the callback query, the bot and Telegram do,
    [handle_button_click] leaves the cache alone and makes at most two
    calls, each a plain [send_message] to the chat the query came from.
    In particular it never sends a photo: [generate_chart] returns
    [None], so the chart branch always ends in the apology. *)
Theorem handle_button_click_only_answers (env : Env) (self : trading_bot.TradingBot)
    (callback_query : PyVal) (w : World) :
  let run := trading_bot.handle_button_click env self callback_query w in
  store run.2 = store w
  /\ (List.length (events_since w run.2) <= 2)%nat
  /\ Forall (fun ev => exists chat_id text,
                         callback_chat callback_query = Ok chat_id
                         /\ ev.1 = SendMessage chat_id text None None)
            (events_since w run.2).
Proof.
  cbv zeta.
  set (P := fun run : Result PyVal * World =>
    store run.2 = store w
    /\ (List.length (events_since w run.2) <= 2)%nat
    /\ Forall (fun ev => exists chat_id text,
                           callback_chat callback_query = Ok chat_id
                           /\ ev.1 = SendMessage chat_id text None None)
              (events_since w run.2)).
  change (P (trading_bot.handle_button_click env self callback_query w)).
  assert (Hnone : forall r, P (r, w)).
  { intros r. unfold P. cbn [fst snd]. split; [reflexivity|].
    rewrite (events_since_app w w []) by (by rewrite app_nil_r).
    split; [cbn; lia | constructor]. }
  assert (Hone : forall r chat_id text x t,
    callback_chat callback_query = Ok chat_id ->
    P (r, record (SendMessage chat_id text None None) x t w)).
  { intros r chat_id text x t Hchat. unfold P. cbn [fst snd]. split; [reflexivity|].
    rewrite (events_since_app w _ [(SendMessage chat_id text None None, x)]) by reflexivity.
    split; [cbn; lia|]. repeat constructor. by exists chat_id, text. }
  assert (Htwo : forall r chat_id text1 text2 x1 x2 t1 t2,
    callback_chat callback_query = Ok chat_id ->
    P (r, record (SendMessage chat_id text2 None None) x2 t2
            (record (SendMessage chat_id text1 None None) x1 t1 w))).
  { intros r chat_id text1 text2 x1 x2 t1 t2 Hchat. unfold P. cbn [fst snd].
    split; [reflexivity|].
    rewrite (events_since_app w _ [(SendMessage chat_id text1 None None, x1);
                                   (SendMessage chat_id text2 None None, x2)])
      by (cbn [record trace]; by rewrite <- app_assoc).
    split; [cbn; lia|]. repeat constructor; by eexists chat_id, _. }
  unfold trading_bot.handle_button_click, trading_bot.handle_button_click_try,
    trading_bot.handle_button_click_except.
  destruct (subscript callback_query "data") as [data|e].
  2: { destruct (trading_bot._bot self); apply Hnone. }
  unfold bind at 1. unfold bind at 1. unfold lift at 1 2 3.
  assert (Hchat := eq_refl (callback_chat callback_query)).
  unfold callback_chat at 2 in Hchat.
  destruct (subscript callback_query "message") as [message|e].
  2: { destruct (trading_bot._bot self); apply Hnone. }
  destruct (subscript message "chat") as [chat|e].
  2: { destruct (trading_bot._bot self); apply Hnone. }
  destruct (subscript chat "id") as [chat_id|e].
  2: { destruct (trading_bot._bot self); apply Hnone. }
  unfold trading_bot.send_message, trading_bot.send_photo,
    chart_service.generate_chart, try_except, bind, lift, ret, raise, external.
  destruct (py_startswith data "chart_") as [[|]|e].
  - destruct data as [| | | |s| | | |];
      try (destruct (trading_bot._bot self);
           [ destruct (reply env _ _); by apply Hone | apply Hnone ]).
    destruct (split s "_") as [|f1 [|f2 [|f3 [|f4 fields]]]];
      try (destruct (trading_bot._bot self);
           [ destruct (reply env _ _); by apply Hone | apply Hnone ]).
    cbn [py_truthy].
    destruct (trading_bot._bot self); [|apply Hnone].
    destruct (reply env (trace w) _); [by apply Hone|].
    destruct (reply env _ _); by apply Htwo.
  - apply Hnone.
  - destruct (trading_bot._bot self);
      [ destruct (reply env _ _); by apply Hone | apply Hnone ].
Qed.

(** *** The payload of the chart button, from renderer to handler *)

Lemma split_go_last (sep : ascii) (cur s : string) :
  contains sep s = false -> split_go sep cur s = [String.rev_app cur s].
Proof.
  revert cur. induction s as [|c s IH]; intros cur Hnone; [reflexivity|].
  cbn [contains] in Hnone. apply orb_false_elim in Hnone as [Hc Hs].
  cbn [split_go]. rewrite Hc. exact (IH (String c cur) Hs).
Qed.

Lemma split_go_field (sep : ascii) (cur s rest : string) :
  contains sep s = false ->
  split_go sep cur (s +:+ String sep rest)
  = String.rev_app cur s :: split_go sep EmptyString rest.
Proof.
  revert cur. induction s as [|c s IH]; intros cur Hnone.
  - simpl. rewrite Ascii.eqb_refl. reflexivity.
  - cbn [contains] in Hnone. apply orb_false_elim in Hnone as [Hc Hs].
    simpl. rewrite Hc. exact (IH (String c cur) Hs).
Qed.

Lemma length_split_go (sep : ascii) (cur s : string) :
  List.length (split_go sep cur s) = S (occurrences sep s).
Proof.
  revert cur. induction s as [|c s IH]; intros cur; [reflexivity|].
  cbn [split_go occurrences]. destruct (Ascii.eqb c sep); cbn [List.length]; by rewrite IH.
Qed.

Lemma occurrences_app (sep : ascii) (s1 s2 : string) :
  occurrences sep (s1 +:+ s2) = (occurrences sep s1 + occurrences sep s2)%nat.
Proof.
  induction s1 as [|c s1 IH]; [reflexivity|].
  simpl. rewrite IH. lia.
Qed.

Lemma contains_occurrences (sep : ascii) (s : string) :
  contains sep s = true -> (1 <= occurrences sep s)%nat.
Proof.
  induction s as [|c s IH]; [discriminate|].
  cbn [contains occurrences]. destruct (Ascii.eqb c sep); [lia|]. cbn [orb]. intros H.
  specialize (IH H). lia.
Qed.

Lemma startswith_chart (rest : string) : startswith ("chart_" +:+ rest) "chart_" = true.
Proof. simpl. by destruct rest. Qed.

Lemma split_chart_payload (symbol timeframe : string) :
  contains "_" symbol = false ->
  contains "_" timeframe = false ->
  split ("chart_" +:+ symbol +:+ "_" +:+ timeframe) "_" = ["chart"; symbol; timeframe].
Proof.
  intros Hsymbol Htimeframe. unfold split.
  change ("chart_" +:+ symbol +:+ "_" +:+ timeframe)
    with ("chart" +:+ String "_" (symbol +:+ String "_" timeframe)).
  rewrite (split_go_field "_" EmptyString "chart") by reflexivity.
  rewrite (split_go_field "_" EmptyString symbol) by exact Hsymbol.
  rewrite (split_go_last "_" EmptyString timeframe) by exact Htimeframe.
  reflexivity.
Qed.

(** With an underscore in the symbol or the timeframe the payload has
    more than three fields. *)
Lemma chart_payload_too_long (symbol timeframe : string) :
  contains "_" symbol = true \/ contains "_" timeframe = true ->
  (3 < List.length (split ("chart_" +:+ symbol +:+ "_" +:+ timeframe) "_"))%nat.
Proof.
  intros Hunderscore. unfold split. rewrite length_split_go.
  change ("chart_" +:+ symbol +:+ "_" +:+ timeframe)
    with ("chart_" +:+ (symbol +:+ ("_" +:+ timeframe))).
  rewrite !occurrences_app.
  change (occurrences "_" "chart_") with 1%nat.
  change (occurrences "_" "_") with 1%nat.
  destruct Hunderscore as [H | H]; apply contains_occurrences in H; lia.
Qed.

(** X14.  Splitting undoes the renderer's joining when, and only
    when, the parts are free of the delimiter: the payload
    [chart_<symbol>_<timeframe>] splits into the three fields
    ["chart"], symbol, timeframe for a symbol and a timeframe without
    underscore, and into more than three fields otherwise. *)
Theorem chart_payload_round_trip (symbol timeframe : string) :
  (contains "_" symbol = false -> contains "_" timeframe = false ->
   split ("chart_" +:+ symbol +:+ "_" +:+ timeframe) "_" = ["chart"; symbol; timeframe])
  /\ (contains "_" symbol = true \/ contains "_" timeframe = true ->
      (3 < List.length (split ("chart_" +:+ symbol +:+ "_" +:+ timeframe) "_"))%nat).
Proof.
  split; [apply split_chart_payload | apply chart_payload_too_long].
Qed.

Lemma chart_payload_round_trip_witness :
  split "chart_EURUSD_1h" "_" = ["chart"; "EURUSD"; "1h"]
  /\ (3 < List.length (split "chart_EUR_USD_1h" "_"))%nat.
Proof.
  split.
  - apply (proj1 (chart_payload_round_trip "EURUSD" "1h")); reflexivity.
  - apply (proj2 (chart_payload_round_trip "EUR_USD" "1h")). left. reflexivity.
Defined.

(** X15.  The chart button of a signal whose symbol and timeframe have
    no underscore is understood by the handler: with an initialised
    bot, the first thing [handle_button_click] does with its payload is
    to send the chart apology to the chat that pressed it, and when
    Telegram accepts that message nothing else is sent and the handler
    returns [None]. *)
Theorem chart_button_is_understood (env : Env) (self : trading_bot.TradingBot)
    (b : trading_bot.Bot) (callback_query chat_id : PyVal) (symbol timeframe : string)
    (w : World) :
  trading_bot._bot self = Some b ->
  subscript callback_query "data"
  = Ok (VStr ("chart_" +:+ symbol +:+ "_" +:+ timeframe)) ->
  callback_chat callback_query = Ok chat_id ->
  contains "_" symbol = false ->
  contains "_" timeframe = false ->
  let apology := SendMessage chat_id "❌ Sorry, could not generate chart at this time."
                   None None in
  let run := trading_bot.handle_button_click env self callback_query w in
  exists rest,
    events_since w run.2 = (apology, reply env (trace w) apology) :: rest
    /\ (is_raise (reply env (trace w) apology) = false -> run.1 = Ok VNone /\ rest = []).
Proof.
  intros Hbot Hdata Hchat Hsymbol Htimeframe apology run.
  assert (Hrun : exists r rest w',
    run = (r, w')
    /\ trace w' = trace w ++ (apology, reply env (trace w) apology) :: rest
    /\ (is_raise (reply env (trace w) apology) = false -> r = Ok VNone /\ rest = [])).
  { subst run.
    unfold trading_bot.handle_button_click, trading_bot.handle_button_click_try,
      trading_bot.handle_button_click_except.
    rewrite Hdata. unfold bind at 1. unfold bind at 1. unfold lift at 1 2 3.
    unfold callback_chat in Hchat.
    destruct (subscript callback_query "message") as [message|]; [|discriminate].
    destruct (subscript message "chat") as [chat|]; [|discriminate].
    rewrite Hchat.
    unfold trading_bot.send_message, trading_bot.send_photo,
      chart_service.generate_chart, try_except, bind, lift, ret, raise, external.
    cbn [py_startswith].
    rewrite (startswith_chart (symbol +:+ "_" +:+ timeframe)).
    rewrite (split_chart_payload symbol timeframe Hsymbol Htimeframe).
    cbn [py_truthy]. rewrite Hbot. fold apology.
    destruct (reply env (trace w) apology) as [a|e].
    - eexists _, [], _. split; [reflexivity|]. split; [reflexivity|]. auto.
    - destruct (reply env _ _); eexists _, [_], _;
        (split; [reflexivity|]);
        (split; [cbn [record trace]; by rewrite <- app_assoc | discriminate]). }
  destruct Hrun as (r & rest & w' & -> & Htrace & Hok).
  exists rest. cbn [fst snd]. split; [by apply events_since_app | exact Hok].
Qed.

Lemma chart_button_is_understood_witness :
  exists rest,
    events_since world0
      (trading_bot.handle_button_click (env_up "Bullish" []) bot_ready
         (callback (VStr "chart_EURUSD_1h") (VInt 123)) world0).2
    = (SendMessage (VInt 123) "❌ Sorry, could not generate chart at this time." None None,
       Ok VNone) :: rest
    /\ (is_raise (Ok VNone : Result PyVal) = false ->
        (trading_bot.handle_button_click (env_up "Bullish" []) bot_ready
           (callback (VStr "chart_EURUSD_1h") (VInt 123)) world0).1 = Ok VNone
        /\ rest = []).
Proof.
  apply (chart_button_is_understood (env_up "Bullish" []) bot_ready
           {| trading_bot.bot_token := VStr "t" |}
           (callback (VStr "chart_EURUSD_1h") (VInt 123)) (VInt 123)
           "EURUSD" "1h" world0); reflexivity.
Defined.

(** X16.  The payload format cannot carry an underscore: when the
    symbol or the timeframe of the signal contains one, the chart
    button rendered for it is not understood.  The unpacking of the
    split payload fails, no chart is asked for, and the chat gets the
    generic error message instead of the chart answer. *)
Theorem chart_button_with_underscore_fails (env : Env) (self : trading_bot.TradingBot)
    (b : trading_bot.Bot) (callback_query chat_id : PyVal) (symbol timeframe : string)
    (w : World) :
  trading_bot._bot self = Some b ->
  subscript callback_query "data"
  = Ok (VStr ("chart_" +:+ symbol +:+ "_" +:+ timeframe)) ->
  callback_chat callback_query = Ok chat_id ->
  contains "_" symbol = true \/ contains "_" timeframe = true ->
  let generic := SendMessage chat_id "❌ An error occurred while processing your request."
                   None None in
  let run := trading_bot.handle_button_click env self callback_query w in
  events_since w run.2 = [(generic, reply env (trace w) generic)]
  /\ run.1 = match reply env (trace w) generic with
             | Ok _ => Ok VNone
             | Raise e => Raise e
             end.
Proof.
  intros Hbot Hdata Hchat Hunderscore generic run.
  assert (Hrun : run = (match reply env (trace w) generic with
                        | Ok _ => Ok VNone
                        | Raise e => Raise e
                        end,
                        record generic (reply env (trace w) generic)
                          (now w + latency env (trace w) generic) w)).
  { subst run.
    unfold trading_bot.handle_button_click, trading_bot.handle_button_click_try,
      trading_bot.handle_button_click_except.
    rewrite Hdata. unfold bind at 1. unfold bind at 1. unfold lift at 1 2 3.
    unfold callback_chat in Hchat.
    destruct (subscript callback_query "message") as [message|]; [|discriminate].
    destruct (subscript message "chat") as [chat|]; [|discriminate].
    rewrite Hchat.
    unfold trading_bot.send_message, trading_bot.send_photo,
      chart_service.generate_chart, try_except, bind, lift, ret, raise, external.
    cbn [py_startswith].
    rewrite (startswith_chart (symbol +:+ "_" +:+ timeframe)).
    pose proof (chart_payload_too_long symbol timeframe Hunderscore) as Hlong.
    destruct (split ("chart_" +:+ symbol +:+ "_" +:+ timeframe) "_")
      as [|f1 [|f2 [|f3 [|f4 fields]]]]; cbn [List.length] in Hlong; try lia.
    rewrite Hbot. fold generic.
    destruct (reply env (trace w) generic); reflexivity. }
  rewrite Hrun. cbn [fst snd]. split; [by apply events_since_app | reflexivity].
Qed.

Lemma chart_button_with_underscore_fails_witness :
  events_since world0
    (trading_bot.handle_button_click (env_up "Bullish" []) bot_ready
       (callback (VStr "chart_EUR_USD_1h") (VInt 123)) world0).2
  = [(SendMessage (VInt 123) "❌ An error occurred while processing your request."
        None None, Ok VNone)]
  /\ (trading_bot.handle_button_click (env_up "Bullish" []) bot_ready
        (callback (VStr "chart_EUR_USD_1h") (VInt 123)) world0).1 = Ok VNone.
Proof.
  apply (chart_button_with_underscore_fails (env_up "Bullish" []) bot_ready
           {| trading_bot.bot_token := VStr "t" |}
           (callback (VStr "chart_EUR_USD_1h") (VInt 123)) (VInt 123)
           "EUR_USD" "1h" world0); try reflexivity.
  left. reflexivity.
Defined.

(** ** The chart capture service *)

(** A successful attempt ends with the screenshot it returns and the
    closing of its browser; and in any attempt the browser that was
    started is closed unless its configuration failed. *)
Lemma capture_attempt_account (env : Env) (symbol : string) (max_retries attempt : Z)
    (w : World) :
  let run := chart_main.capture_attempt env symbol max_retries attempt w in
  (captured run.1 = true ->
   exists png d x before,
     run.1 = Ok (Return (png, true))
     /\ is_raise (py_len png) = false
     /\ trace run.2 = trace w ++ before ++ [(GetScreenshotAsPng d, Ok png); (DriverQuit d, x)])
  /\ exists new,
       trace run.2 = trace w ++ new
       /\ count is_browser_up new
          = (count is_quit new + count is_config_failure new)%nat.
Proof.
  cbv zeta.
  set (Q := fun (r : Result (LoopCtl (PyVal * bool))) (w' : World) =>
    (captured r = true ->
     exists png d x before,
       r = Ok (Return (png, true))
       /\ is_raise (py_len png) = false
       /\ trace w' = trace w ++ before ++ [(GetScreenshotAsPng d, Ok png); (DriverQuit d, x)])
    /\ exists new,
         trace w' = trace w ++ new
         /\ count is_browser_up new
            = (count is_quit new + count is_config_failure new)%nat).
  change (wp (chart_main.capture_attempt env symbol max_retries attempt) w Q).
  unfold chart_main.capture_attempt, chart_main.setup_driver.
  cbv zeta. fold (chart_url symbol).
  wp_step. wp_step. wp_step. wp_step.
  apply wp_webdriver_Chrome; [intros e |]; wp_run.
  all: subst Q; cbv beta; split;
    [ | eexists; split;
        [cbn [record trace]; rewrite <- ?app_assoc; reflexivity | reflexivity] ].
  all: try (intros Hcaptured; discriminate Hcaptured).
  all: intros _; eexists _, _, _, [_; _; _; _; _; _; _];
    (split; [reflexivity|]);
    (split; [ match goal with H : py_len _ = Ok _ |- _ => rewrite H end; reflexivity |]);
    cbn [record trace]; rewrite <- !app_assoc; reflexivity.
Qed.

Lemma capture_attempt_success (env : Env) (symbol : string) (max_retries attempt : Z)
    (w : World) :
  let run := chart_main.capture_attempt env symbol max_retries attempt w in
  captured run.1 = true ->
  exists png d x before,
    run.1 = Ok (Return (png, true))
    /\ is_raise (py_len png) = false
    /\ trace run.2 = trace w ++ before ++ [(GetScreenshotAsPng d, Ok png); (DriverQuit d, x)].
Proof. exact (proj1 (capture_attempt_account env symbol max_retries attempt w)). Qed.

(** What the capture loop returns and how many browsers it starts. *)
Lemma capture_loop_result (env : Env) (symbol : string) (max_retries : Z)
    (attempts : list Z) (w : World) :
  let run := capture_loop env symbol max_retries attempts w in
  exists new,
    trace run.2 = trace w ++ new
    /\ (count chart_main.is_launch new <= List.length attempts)%nat
    /\ (run.1 = Ok (VNone, false)
        \/ exists png d x before,
             run.1 = Ok (png, true)
             /\ is_raise (py_len png) = false
             /\ new = before ++ [(GetScreenshotAsPng d, Ok png); (DriverQuit d, x)]).
Proof.
  revert w. induction attempts as [|attempt rest IH]; intros w.
  - exists []. cbn [capture_loop for_in ret fst snd].
    split; [by rewrite app_nil_r|]. split; [cbn; lia | by left].
  - cbv zeta. rewrite capture_loop_cons.
    destruct (capture_attempt_run env symbol max_retries attempt w)
      as (new1 & Htrace1 & (Hlaunch & _) & Hresult).
    pose proof (capture_attempt_success env symbol max_retries attempt w) as Hsuccess.
    cbv zeta in Hsuccess.
    destruct (chart_main.capture_attempt env symbol max_retries attempt w) as [r1 w1].
    cbn [fst snd] in Htrace1, Hresult, Hsuccess.
    destruct Hresult as [Hcap | ->].
    + destruct (Hsuccess Hcap) as (png & d & x & before & -> & Hlen & Htrace).
      exists new1. cbn [fst snd]. split; [exact Htrace1|].
      split; [rewrite Hlaunch; cbn; lia|].
      right. exists png, d, x, before. split; [reflexivity|]. split; [exact Hlen|].
      rewrite Htrace1 in Htrace. by apply app_inv_head in Htrace.
    + destruct (attempt <? max_retries - 1).
      * destruct (IH w1) as (new2 & Htrace2 & Hcount2 & Hresult2).
        cbv zeta in Htrace2, Hresult2.
        exists (new1 ++ new2).
        split; [by rewrite Htrace2, Htrace1, <- app_assoc|].
        split; [rewrite count_app, Hlaunch; cbn [List.length]; lia|].
        destruct Hresult2 as [Hnone | (png & d & x & before & Hok & Hlen & ->)];
          [by left|].
        right. exists png, d, x, (new1 ++ before).
        split; [exact Hok|]. split; [exact Hlen|]. by rewrite <- app_assoc.
      * exists new1. cbn [fst snd]. split; [exact Htrace1|].
        split; [rewrite Hlaunch; cbn; lia | by left].
Qed.

Lemma length_range (n : Z) : Z.of_nat (List.length (range n)) = Z.max 0 n.
Proof. unfold range. rewrite length_map, length_seq. lia. Qed.

Lemma capture_is_bounded_and_tidy_aux (env : Env) (symbol interval theme : string)
    (max_retries : Z) (w : World) :
  let run := chart_main.capture_tradingview_chart env symbol interval theme max_retries w in
  (run.1 = Ok (VNone, false) \/ exists png, run.1 = Ok (png, true))
  /\ (count chart_main.is_launch (events_since w run.2)
      <= List.length (range max_retries))%nat.
Proof.
  intros run.
  change run with (capture_loop env symbol max_retries (range max_retries) w) in *.
  clear run.
  destruct (capture_loop_result env symbol max_retries (range max_retries) w)
    as (evs & Htrace & Hlaunches & Hresult).
  cbv zeta in Htrace, Hresult.
  rewrite (events_since_app _ _ evs Htrace). split; [|exact Hlaunches].
  destruct Hresult as [H | (png & _ & _ & _ & H & _)]; [by left | right; by exists png].
Qed.

(** X17.  Whatever the browser does, [capture_tradingview_chart] never
    raises and returns either [(None, False)] or a screenshot with
    [True]; it starts at most [max_retries] browsers, calls
    [driver.quit()] once for every driver [setup_driver] returned, and
    never twice on one driver. *)
Theorem capture_is_bounded_and_tidy (env : Env) (symbol interval theme : string)
    (max_retries : Z) (w : World) :
  let run := chart_main.capture_tradingview_chart env symbol interval theme max_retries w in
  let new := events_since w run.2 in
  (run.1 = Ok (VNone, false) \/ exists png, run.1 = Ok (png, true))
  /\ Z.of_nat (count chart_main.is_launch new) <= Z.max 0 max_retries
  /\ count is_quit new = count is_setup_done new
  /\ NoDup (omap quit_driver new).
Proof.
  intros run new.
  change run with (capture_loop env symbol max_retries (range max_retries) w) in *.
  clear run.
  destruct (capture_loop_result env symbol max_retries (range max_retries) w)
    as (evs & Htrace & Hlaunches & Hresult).
  destruct (capture_loop_run env symbol max_retries (range max_retries) w)
    as (evs' & Htrace' & _ & Hquit & _ & _ & Hnodup).
  cbv zeta in Htrace, Hresult, Htrace'.
  subst new. rewrite (events_since_app _ _ evs Htrace).
  assert (evs' = evs) as -> by (rewrite Htrace in Htrace'; by apply app_inv_head in Htrace').
  split.
  - destruct Hresult as [H | (png & _ & _ & _ & H & _)]; [by left | right; by exists png].
  - split; [|by split]. pose proof (length_range max_retries). lia.
Qed.

(** X18.  With [max_retries] zero or negative the loop body never
    runs: no browser is started, nothing is called, and the result is
    [(None, False)]. *)
Theorem capture_without_attempts (env : Env) (symbol interval theme : string)
    (max_retries : Z) (w : World) :
  max_retries <= 0 ->
  chart_main.capture_tradingview_chart env symbol interval theme max_retries w
  = (Ok (VNone, false), w).
Proof.
  intros Hmax. unfold chart_main.capture_tradingview_chart, range.
  replace (Z.to_nat max_retries) with 0%nat by lia. reflexivity.
Qed.

Lemma capture_without_attempts_witness :
  chart_main.capture_tradingview_chart (env_up "" []) "BTCUSD" "1h" "dark" 0 world0
  = (Ok (VNone, false), world0).
Proof.
  apply (capture_without_attempts (env_up "" []) "BTCUSD" "1h" "dark" 0 world0). lia.
Defined.

(** X19.  When [capture_tradingview_chart] returns a screenshot, these
    are the bytes the browser gave to the last
    [get_screenshot_as_png] call, they have a length, and the run ends
    right after with [driver.quit()] on that same browser: success
    stops the retries and still closes the browser. *)
Theorem capture_success_ends_with_quit (env : Env) (symbol interval theme : string)
    (max_retries : Z) (png : PyVal) (w : World) :
  let run := chart_main.capture_tradingview_chart env symbol interval theme max_retries w in
  run.1 = Ok (png, true) ->
  is_raise (py_len png) = false
  /\ exists d x before,
       events_since w run.2
       = before ++ [(GetScreenshotAsPng d, Ok png); (DriverQuit d, x)].
Proof.
  intros run Hrun.
  change run with (capture_loop env symbol max_retries (range max_retries) w) in *.
  clear run.
  destruct (capture_loop_result env symbol max_retries (range max_retries) w)
    as (evs & Htrace & _ & Hresult).
  cbv zeta in Htrace, Hresult.
  rewrite (events_since_app _ _ evs Htrace).
  destruct Hresult as [H | (png' & d & x & before & H & Hlen & ->)];
    rewrite H in Hrun; [discriminate|].
  injection Hrun as ->. split; [exact Hlen|]. by exists d, x, before.
Qed.

Lemma capture_success_ends_with_quit_witness :
  is_raise (py_len (VBytes "PNG")) = false
  /\ exists d x before,
       events_since world0
         (chart_main.capture_tradingview_chart (env_up "" []) "BTCUSD" "1h" "dark" 2
            world0).2
       = before ++ [(GetScreenshotAsPng d, Ok (VBytes "PNG")); (DriverQuit d, x)].
Proof.
  apply (capture_success_ends_with_quit (env_up "" []) "BTCUSD" "1h" "dark" 2
           (VBytes "PNG") world0).
  reflexivity.
Defined.

Lemma capture_loop_account (env : Env) (symbol : string) (max_retries : Z)
    (attempts : list Z) (w : World) :
  exists new,
    trace (capture_loop env symbol max_retries attempts w).2 = trace w ++ new
    /\ count is_browser_up new
       = (count is_quit new + count is_config_failure new)%nat.
Proof.
  revert w. induction attempts as [|attempt rest IH]; intros w.
  - exists []. split; [by rewrite app_nil_r | reflexivity].
  - rewrite capture_loop_cons.
    destruct (capture_attempt_account env symbol max_retries attempt w)
      as (_ & new1 & Htrace1 & Hcount1).
    cbv zeta in Htrace1.
    destruct (chart_main.capture_attempt env symbol max_retries attempt w)
      as [[[|r]|e] w1]; cbn [snd] in Htrace1 |- *; try by exists new1.
    destruct (IH w1) as (new2 & Htrace2 & Hcount2).
    exists (new1 ++ new2). split; [by rewrite Htrace2, Htrace1, <- app_assoc|].
    rewrite !count_app. lia.
Qed.

(** X27.  The browsers [capture_tradingview_chart] leaves open are
    exactly those whose configuration failed: in every run the number
    of browsers started equals the number of [driver.quit()] calls
    plus the number of times [set_window_size] or
    [set_page_load_timeout] raised inside [setup_driver].  A browser
    that could be configured is always closed, on success and on
    failure; one that could not is never closed. *)
Theorem capture_closes_configured_browsers (env : Env) (symbol interval theme : string)
    (max_retries : Z) (w : World) :
  let new := events_since w
    (chart_main.capture_tradingview_chart env symbol interval theme max_retries w).2 in
  count is_browser_up new = (count is_quit new + count is_config_failure new)%nat.
Proof.
  cbv zeta.
  destruct (capture_loop_account env symbol max_retries (range max_retries) w)
    as (evs & Htrace & Hcount).
  change (chart_main.capture_tradingview_chart env symbol interval theme max_retries w)
    with (capture_loop env symbol max_retries (range max_retries) w).
  by rewrite (events_since_app _ _ evs Htrace).
Qed.

(** X20.  [GET /chart] has two answers only.  It answers 200 with the
    media type [image/png] and a non-empty body exactly when the
    capture returned a non-empty screenshot; in every other case it
    answers 500.  It starts at most two browsers. *)
Theorem get_chart_png_or_500 (env : Env) (symbol interval theme : string) (w : World) :
  let run := chart_main.get_chart env symbol interval theme w in
  let capture := chart_main.capture_tradingview_chart env symbol interval theme 2 w in
  run.2 = capture.2
  /\ (count chart_main.is_launch (events_since w run.2) <= 2)%nat
  /\ ((exists png,
         capture.1 = Ok (png, true) /\ py_truthy png = true
         /\ run.1 = Ok (VObj [("content", png); ("media_type", VStr "image/png")])
         /\ status_code (http_response run.1) = 200)
      \/ ((forall png, capture.1 = Ok (png, true) -> py_truthy png = false)
          /\ run.1 = Raise (HTTPException 500
                             (str_exn env (HTTPException 500 "Failed to capture chart")))
          /\ status_code (http_response run.1) = 500)).
Proof.
  intros run capture.
  destruct (capture_is_bounded_and_tidy_aux env symbol interval theme 2 w)
    as (Hresult & Hlaunches).
  fold capture in Hresult, Hlaunches.
  assert (Hrun : run = (match capture.1 with
                        | Ok (screenshot, success) =>
                            if success && py_truthy screenshot
                            then Ok (VObj [("content", screenshot);
                                           ("media_type", VStr "image/png")])
                            else Raise (HTTPException 500
                                   (str_exn env (HTTPException 500 "Failed to capture chart")))
                        | Raise e => Raise (HTTPException 500 (str_exn env e))
                        end, capture.2)).
  { subst run capture. unfold chart_main.get_chart, try_except, bind.
    destruct (chart_main.capture_tradingview_chart env symbol interval theme 2 w)
      as [[[screenshot success]|e] w1]; cbn [fst snd]; [|reflexivity].
    destruct (success && py_truthy screenshot); reflexivity. }
  rewrite Hrun. cbn [fst snd].
  split; [reflexivity|]. split; [exact Hlaunches|].
  destruct Hresult as [-> | (png & ->)].
  - right. split; [intros png Heq; discriminate|]. split; reflexivity.
  - cbn [andb]. destruct (py_truthy png) eqn:Htruthy.
    + left. exists png. repeat split; first [reflexivity | exact Htruthy].
    + right. split; [intros png' Heq; by injection Heq as <-|]. split; reflexivity.
Qed.

(** X21.  [GET /health] of the chart service always answers 200 with
    [status] ["healthy"], and never 500.  Its [browser] field is
    ["healthy"] exactly when a browser could be started, configured
    and closed, all four driver calls succeeding; otherwise it is
    ["unhealthy: "] followed by the text of the exception, and the
    call that raised is the last one made. *)
Theorem chart_health_check_reports_browser (env : Env) (timestamp : string) (w : World) :
  let run := chart_main.health_check env timestamp w in
  let new := events_since w run.2 in
  status_code (http_response run.1) = 200
  /\ exists browser,
       run.1 = Ok (VDict [("status", VStr "healthy");
                          ("browser", VStr browser);
                          ("timestamp", VStr timestamp)])
       /\ ((browser = "healthy"
            /\ forallb (fun ev => negb (is_raise ev.2)) new = true
            /\ List.length new = 4%nat /\ count is_quit new = 1%nat)
           \/ (exists e before c,
                 browser = "unhealthy: " +:+ str_exn env e
                 /\ new = before ++ [(c, Raise e)]
                 /\ forallb (fun ev => negb (is_raise ev.2)) before = true)).
Proof.
  cbv zeta.
  set (Q := fun (r : Result PyVal) (w' : World) =>
    status_code (http_response r) = 200
    /\ exists browser,
         r = Ok (VDict [("status", VStr "healthy");
                        ("browser", VStr browser);
                        ("timestamp", VStr timestamp)])
         /\ ((browser = "healthy"
              /\ forallb (fun ev => negb (is_raise ev.2)) (events_since w w') = true
              /\ List.length (events_since w w') = 4%nat
              /\ count is_quit (events_since w w') = 1%nat)
             \/ (exists e before c,
                   browser = "unhealthy: " +:+ str_exn env e
                   /\ events_since w w' = before ++ [(c, Raise e)]
                   /\ forallb (fun ev => negb (is_raise ev.2)) before = true))).
  change (wp (chart_main.health_check env timestamp) w Q).
  unfold chart_main.health_check, chart_main.setup_driver. cbv zeta.
  wp_step. wp_step. wp_step. wp_step. wp_step. wp_step.
  apply wp_webdriver_Chrome; [intros e |]; wp_run.
  all: subst Q; cbv beta; (split; [reflexivity|]); eexists; (split; [reflexivity|]).
  all: match goal with
       | |- context [events_since ?w0 ?w'] =>
           let new := fresh "new" in
           evar (new : list Event);
           replace (events_since w0 w') with new
             by (symmetry; apply events_since_app; cbn [record trace];
                 rewrite <- ?app_assoc; subst new; reflexivity);
           subst new
       end.
  all: first
    [ left; repeat split; reflexivity
    | right; eexists _, [], _; repeat split; reflexivity
    | right; eexists _, [_], _; repeat split; reflexivity
    | right; eexists _, [_; _], _; repeat split; reflexivity
    | right; eexists _, [_; _; _], _; repeat split; reflexivity ].
Qed.

(** ** The front door of the bot *)


(** X23.  In [GET /health] of the bot each service is judged by its
    own probe only, and a probe that fails does not stop the ones
    after it: the Telegram lookup is always made, the Redis ping and
    the Supabase query whenever their client exists.  Supabase and
    Redis are reported ["healthy"] when their probe returned and
    ["unhealthy"] otherwise; Telegram is ["healthy"] for a truthy bot,
    ["unknown"] for a falsy one and ["unhealthy"] when the lookup
    raises. *)
Theorem health_check_probes_are_independent (env : Env) (g : app_main.Globals)
    (w : World) :
  let run := app_main.health_check env g w in
  let new := events_since w run.2 in
  run.1 = Ok (VDict
    [("status", VStr "healthy");
     ("services",
      VDict [("supabase", VStr (probe_status is_supabase_query new));
             ("redis", VStr (probe_status is_ping new));
             ("telegram", VStr (telegram_status new))]);
     ("environment",
      VDict [("REDIS_URL", VBool (py_truthy (app_main.getenv env "REDIS_URL")));
             ("SUPABASE_URL", VBool (py_truthy (app_main.getenv env "SUPABASE_URL")));
             ("TELEGRAM_BOT_TOKEN",
              VBool (py_truthy (app_main.getenv env "TELEGRAM_BOT_TOKEN")))])])
  /\ count (fun ev => is_bot_lookup ev.1) new = 1%nat
  /\ count (fun ev => is_ping ev.1) new
     = (if app_main.redis_client_defined g then 1 else 0)%nat
  /\ count (fun ev => is_supabase_query ev.1) new
     = (if app_main.supabase_defined g then 1 else 0)%nat.
Proof.
  cbv zeta.
  set (Q := fun (r : Result PyVal) (w' : World) =>
    r = Ok (VDict
      [("status", VStr "healthy");
       ("services",
        VDict [("supabase", VStr (probe_status is_supabase_query (events_since w w')));
               ("redis", VStr (probe_status is_ping (events_since w w')));
               ("telegram", VStr (telegram_status (events_since w w')))]);
       ("environment",
        VDict [("REDIS_URL", VBool (py_truthy (app_main.getenv env "REDIS_URL")));
               ("SUPABASE_URL", VBool (py_truthy (app_main.getenv env "SUPABASE_URL")));
               ("TELEGRAM_BOT_TOKEN",
                VBool (py_truthy (app_main.getenv env "TELEGRAM_BOT_TOKEN")))])])
    /\ count (fun ev => is_bot_lookup ev.1) (events_since w w') = 1%nat
    /\ count (fun ev => is_ping ev.1) (events_since w w')
       = (if app_main.redis_client_defined g then 1 else 0)%nat
    /\ count (fun ev => is_supabase_query ev.1) (events_since w w')
       = (if app_main.supabase_defined g then 1 else 0)%nat).
  change (wp (app_main.health_check env g) w Q).
  unfold app_main.health_check, app_main.load_global. cbv zeta.
  wp_run.
  all: try (apply wp_redis_ping; intros ? [[? ->] | ->]).
  all: wp_run.
  all: subst Q; cbv beta.
  all: match goal with
       | |- context [events_since ?w0 ?w'] =>
           let new := fresh "new" in
           evar (new : list Event);
           replace (events_since w0 w') with new
             by (symmetry; apply events_since_app; cbn [record trace];
                 rewrite <- ?app_assoc; subst new; reflexivity);
           subst new
       end.
  all: repeat match goal with
       | H : app_main.supabase_defined _ = _ |- _ => rewrite H; clear H
       | H : app_main.redis_client_defined _ = _ |- _ => rewrite H; clear H
       end.
  all: cbn [telegram_status List.find is_bot_lookup fst snd app dict_set String.eqb
            Ascii.eqb Bool.eqb];
    repeat match goal with H : py_truthy _ = _ |- _ => rewrite H end;
    repeat split; reflexivity.
Qed.

(** ** The chart URL *)

Lemma all_chars_app (p : ascii -> bool) (s1 s2 : string) :
  all_chars p (s1 +:+ s2) = all_chars p s1 && all_chars p s2.
Proof.
  induction s1 as [|c s1 IH]; [reflexivity|].
  simpl. rewrite IH. by rewrite andb_assoc.
Qed.

Lemma quote_cons (c : ascii) (s : string) :
  quote (String c s) = quote (String c EmptyString) +:+ quote s.
Proof. cbn [quote]. by destruct (always_safe c || Ascii.eqb c "/"). Qed.

Lemma quote_one_char (c : ascii) :
  all_chars url_char (quote (String c EmptyString)) = true.
Proof. destruct c as [[] [] [] [] [] [] [] []]; vm_compute; reflexivity. Qed.

Lemma quote_url_chars (s : string) : all_chars url_char (quote s) = true.
Proof.
  induction s as [|c s IH]; [reflexivity|].
  by rewrite quote_cons, all_chars_app, quote_one_char, IH.
Qed.

Lemma quote_safe (s : string) : all_chars always_safe s = true -> quote s = s.
Proof.
  induction s as [|c s IH]; [reflexivity|].
  cbn [all_chars quote]. intros [Hc Hs]%andb_prop.
  rewrite Hc. cbn [orb]. by rewrite (IH Hs).
Qed.

Lemma all_chars_contains (p : ascii -> bool) (c : ascii) (s : string) :
  all_chars p s = true -> p c = false -> contains c s = false.
Proof.
  intros Hall Hc. induction s as [|d s IH]; [reflexivity|].
  cbn [all_chars] in Hall. apply andb_prop in Hall as [Hd Hs].
  cbn [contains]. rewrite (IH Hs), orb_false_r.
  destruct (Ascii.eqb_spec d c) as [-> | _]; [congruence | reflexivity].
Qed.

(** X25.  For a symbol made of letters, digits and [_.-~] only, every
    page the capture loads is
    [https://www.tradingview.com/chart/?symbol=FX%3A<symbol>]: the
    colon of the exchange prefix is escaped and the symbol is passed
    as it is. *)
Theorem chart_url_of_plain_symbol (env : Env) (symbol interval theme : string)
    (max_retries : Z) (w : World) :
  all_chars always_safe symbol = true ->
  Forall (eq ("https://www.tradingview.com/chart/?symbol=FX%3A" +:+ symbol))
    (omap loaded_url
       (events_since w
          (chart_main.capture_tradingview_chart env symbol interval theme max_retries w).2)).
Proof.
  intros Hplain.
  destruct (capture_loop_run env symbol max_retries (range max_retries) w)
    as (evs & Htrace & _ & _ & Hurls & _).
  cbv zeta in Htrace.
  change (chart_main.capture_tradingview_chart env symbol interval theme max_retries w)
    with (capture_loop env symbol max_retries (range max_retries) w).
  rewrite (events_since_app _ _ evs Htrace).
  replace ("https://www.tradingview.com/chart/?symbol=FX%3A" +:+ symbol)
    with (chart_url symbol); [exact Hurls|].
  unfold chart_url.
  change (quote ("FX:" +:+ symbol)) with ("FX%3A" +:+ quote symbol).
  by rewrite (quote_safe symbol Hplain).
Qed.

Lemma chart_url_of_plain_symbol_witness :
  Forall (eq "https://www.tradingview.com/chart/?symbol=FX%3ABTCUSD")
    (omap loaded_url
       (events_since world0
          (chart_main.capture_tradingview_chart env_chart_timeout "BTCUSD" "1h" "dark" 2
             world0).2)).
Proof.
  apply (chart_url_of_plain_symbol env_chart_timeout "BTCUSD" "1h" "dark" 2 world0).
  reflexivity.
Defined.

(** X26.  Whatever the symbol, it cannot add to the URL: every page
    the capture loads is the fixed prefix
    [https://www.tradingview.com/chart/?symbol=] followed by
    characters among letters, digits, [_.-~/] and [%] only, so it has
    no [&], [#], [=], [?] or space after the prefix. *)
Theorem chart_url_has_one_parameter (env : Env) (symbol interval theme : string)
    (max_retries : Z) (w : World) :
  Forall (fun url => exists value,
            url = "https://www.tradingview.com/chart/?symbol=" +:+ value
            /\ all_chars url_char value = true
            /\ contains "&" value = false /\ contains "#" value = false
            /\ contains "=" value = false /\ contains "?" value = false
            /\ contains " " value = false)
    (omap loaded_url
       (events_since w
          (chart_main.capture_tradingview_chart env symbol interval theme max_retries w).2)).
Proof.
  destruct (capture_loop_run env symbol max_retries (range max_retries) w)
    as (evs & Htrace & _ & _ & Hurls & _).
  cbv zeta in Htrace.
  change (chart_main.capture_tradingview_chart env symbol interval theme max_retries w)
    with (capture_loop env symbol max_retries (range max_retries) w).
  rewrite (events_since_app _ _ evs Htrace).
  eapply Forall_impl; [exact Hurls|].
  intros url <-. exists (quote ("FX:" +:+ symbol)).
  pose proof (quote_url_chars ("FX:" +:+ symbol)) as Hchars.
  split; [reflexivity|]. split; [exact Hchars|].
  repeat split; by apply (all_chars_contains url_char).
Qed.
